(** * EchoMind: the browser client's capture and turn-management logic

    A shallow embedding of the richer of the two client scripts (the one
    built on MediaRecorder, [getUserMedia] and the two endpoints
    [/transcribe_audio] and [/process_input]).

    The script is event driven.  Every handler is a function on an explicit
    [State] holding the script's module-level variables, the part of the
    page it reads and writes, and the browser's side of the story: clock,
    timers, live microphone streams, outstanding asynchronous operations
    and a log of the requests issued.  An [async] function is cut at each
    [await]: the part that runs up to the [await], and one continuation per
    awaited promise, which takes the way the promise settled.  Exceptions
    are modelled with a small state-and-exception monad, so that
    [try]/[catch]/[finally] read as in the source.

    Strings are the UTF-8 bytes of the script's strings; [trim] strips the
    encodings of the white space and line terminator code points.  Times
    are in milliseconds. *)

From Stdlib Require Import String Ascii List Bool Arith NArith.
From Stdlib.Strings Require Import Byte.
From Stdlib Require Import DecimalString.
Import ListNotations.

Local Open Scope list_scope.
Local Open Scope string_scope.

(** ** Strings as the script uses them *)

Module JsString.

(** The code points that [String.prototype.trim] strips: ECMAScript's
    WhiteSpace (TAB, VT, FF, SP, NBSP, ZWNBSP and the Unicode space
    separators) and LineTerminator (LF, CR, LS, PS).  A string is held as
    its UTF-8 bytes, where a code point at either end of the string is the
    byte sequence of its encoding at that end. *)
Definition whiteSpace : list N :=
  [9; 10; 11; 12; 13; 32; 160; 5760;
   8192; 8193; 8194; 8195; 8196; 8197; 8198; 8199; 8200; 8201; 8202;
   8232; 8233; 8239; 8287; 12288; 65279]%N.

(** UTF-8 bytes of a code point of the basic plane. *)
Definition utf8 (cp : N) : list ascii :=
  if (cp <? 128)%N then [ascii_of_N cp]
  else if (cp <? 2048)%N then
    [ascii_of_N (192 + N.shiftr cp 6);
     ascii_of_N (128 + N.land cp 63)]
  else
    [ascii_of_N (224 + N.shiftr cp 12);
     ascii_of_N (128 + N.land (N.shiftr cp 6) 63);
     ascii_of_N (128 + N.land cp 63)].

(** The byte sequences to strip, as they stand at the start of a string and,
    reversed, at its end. *)
Definition whiteSpaceBytes : list (list ascii) :=
  Eval cbv in map utf8 whiteSpace.

Definition whiteSpaceBytesRev : list (list ascii) :=
  Eval cbv in map (@rev ascii) whiteSpaceBytes.

(** [l] without the prefix [p], when it has that prefix. *)
Fixpoint dropPrefix (p l : list ascii) : option (list ascii) :=
  match p, l with
  | [], _ => Some l
  | a :: p', b :: l' => if Ascii.eqb a b then dropPrefix p' l' else None
  | _ :: _, [] => None
  end.

(** [l] without the first of the sequences [pats] it begins with. *)
Fixpoint dropOne (pats : list (list ascii)) (l : list ascii)
    : option (list ascii) :=
  match pats with
  | [] => None
  | p :: pats' =>
      match dropPrefix p l with
      | Some r => Some r
      | None => dropOne pats' l
      end
  end.

(** Strip leading sequences, at most [n] times. *)
Fixpoint stripN (pats : list (list ascii)) (n : nat) (l : list ascii)
    : list ascii :=
  match n with
  | 0 => l
  | S n' =>
      match dropOne pats l with
      | Some r => stripN pats n' r
      | None => l
      end
  end.

(** Each sequence has a byte at least, so [length l] rounds strip them all. *)
Definition strip (pats : list (list ascii)) (l : list ascii) : list ascii :=
  stripN pats (length l) l.

Definition trimStart (s : string) : string :=
  string_of_list_ascii (strip whiteSpaceBytes (list_ascii_of_string s)).

Definition trimEnd (s : string) : string :=
  string_of_list_ascii
    (rev (strip whiteSpaceBytesRev (rev (list_ascii_of_string s)))).

Definition trim (s : string) : string := trimEnd (trimStart s).

(** A string is truthy when it is not empty. *)
Definition truthy (s : string) : bool :=
  match s with EmptyString => false | String _ _ => true end.

(** A property that may be [undefined] ([None]) or hold a string. *)
Definition truthyO (o : option string) : bool :=
  match o with Some s => truthy s | None => false end.

(** [o || d] for such a property. *)
Definition orElse (o : option string) (d : string) : string :=
  match o with
  | Some s => if truthy s then s else d
  | None => d
  end.

(** [`${n}`] for a non-negative integer. *)
Definition ofNat (n : nat) : string := NilZero.string_of_uint (Nat.to_uint n).

(** What [document.createTextNode] shows for a property. *)
Definition display (o : option string) : string :=
  match o with Some s => s | None => "undefined" end.

End JsString.
Import JsString.

(** ** Values exchanged with the browser *)

Definition NodeId := nat.
Definition StreamId := nat.

(** A [Blob] is its bytes; [event.data.size] is their number and
    [new Blob(parts)] joins the parts in order. *)
Definition Blob := list byte.
Definition blob_size (b : Blob) : nat := length b.
Definition new_Blob (parts : list Blob) : Blob := concat parts.

(** A thrown value: [error.name] and [error.message]. *)
Record Err : Type := mkErr { err_name : string; err_message : string }.
Definition new_Error (msg : string) : Err := mkErr "Error" msg.

(** The body of a response once parsed.  The transcription endpoint fills
    [d_text] and maybe [d_error]; the reasoning endpoint may add [d_audio]. *)
Record Data : Type := mkData {
  d_error : option string;
  d_text : option string;
  d_audio : option string
}.
Definition emptyObject : Data := mkData None None None.

(** A response: [response.ok], [response.status], and what
    [response.json()] settles with (a rejection when the body does not
    parse). *)
Record Response : Type := mkResponse {
  r_ok : bool;
  r_status : nat;
  r_json : Err + Data
}.

(** How a [fetch] settles. *)
Inductive FetchOutcome : Type :=
| Rejected (e : Err)
| Resolved (r : Response).

(** A request issued with [fetch]: the audio payload posted to
    [/transcribe_audio], or the [input] posted to [/process_input]. *)
Inductive Request : Type :=
| TranscribeAudio (payload : Blob)
| ProcessInput (input : string).

(** What happens after [getUserMedia] grants a stream: the recorder is built
    and started, or its constructor throws, or [start()] throws. *)
Inductive Setup : Type :=
| SetupOk
| ConstructorThrows (e : Err)
| StartThrows (e : Err).

Inductive MediaOutcome : Type :=
| Granted (stream : StreamId) (setup : Setup)
| Denied (e : Err).

Inductive RecState : Type := inactive | recording.

Record Recorder : Type := mkRecorder {
  rec_stream : StreamId;
  rec_mimeType : string;
  rec_state : RecState
}.

(** ** The page *)

Inductive Severity : Type := info | listening | error.

(** The status element: the node's identity, its text and its type. *)
Record StatusNode : Type := mkStatus {
  st_node : NodeId;
  st_message : string;
  st_type : Severity
}.

Inductive Sender : Type := user | ai.

Inductive ChatNode : Type :=
| Placeholder
| Message (sender : Sender) (text : string) (stamp : N)
| TypingIndicator (node : NodeId).

(** The two callbacks the script hands to [setTimeout]. *)
Inductive TimerCb : Type := HideInfo | AutoSubmit.

(** Asynchronous operations the script started and whose outcome it
    awaits. *)
Inductive Async : Type :=
| AwaitMedia
| AwaitStop
| AwaitTranscribe
| AwaitTurn (typingIndicator : NodeId)
| AwaitPlay.

Record State : Type := mkState {
  mediaRecorder : option Recorder;
    (* script variable mediaRecorder *)
  audioChunks : list Blob;
    (* script variable audioChunks *)
  isRecording : bool;
    (* script variable isRecording *)
  statusIndicator : option NodeId;
    (* script variable statusIndicator: the node created last *)
  audioStream : option StreamId;
    (* script variable audioStream *)
  userInput : string;
    (* userInput.value *)
  voiceStatus : option StatusNode;
    (* the attached element with id voice-status *)
  chatContainer : list ChatNode;
    (* children of the chat container, oldest first *)
  voiceBtn : bool;
    (* true when the voice button shows the stop icon *)
  audioPlayer : option string;
    (* audioPlayer.src *)
  mediaSupported : bool;
    (* navigator.mediaDevices.getUserMedia exists *)
  supportsWebm : bool;
    (* MediaRecorder.isTypeSupported('audio/webm') *)
  supportsOpus : bool;
    (* MediaRecorder.isTypeSupported('audio/webm;codecs=opus') *)
  now : N;
    (* clock, in milliseconds *)
  timers : list (N * TimerCb);
    (* setTimeout callbacks with their due time *)
  nextNode : NodeId;
    (* identity of the next node the script keeps a reference to *)
  liveStreams : list StreamId;
    (* microphone streams whose tracks are not stopped *)
  mediaRequests : nat;
    (* number of getUserMedia calls made so far *)
  pending : list Async;
    (* asynchronous operations not yet settled *)
  requests : list Request;
    (* every fetch issued so far, oldest first *)
  alerts : list string
    (* messages shown with alert *)
}.

Definition set_mediaRecorder (v : option Recorder) (s : State) : State :=
  mkState v (audioChunks s) (isRecording s) (statusIndicator s)
    (audioStream s) (userInput s) (voiceStatus s) (chatContainer s)
    (voiceBtn s) (audioPlayer s) (mediaSupported s) (supportsWebm s)
    (supportsOpus s) (now s) (timers s) (nextNode s) (liveStreams s)
    (mediaRequests s) (pending s) (requests s) (alerts s).

Definition set_audioChunks (v : list Blob) (s : State) : State :=
  mkState (mediaRecorder s) v (isRecording s) (statusIndicator s)
    (audioStream s) (userInput s) (voiceStatus s) (chatContainer s)
    (voiceBtn s) (audioPlayer s) (mediaSupported s) (supportsWebm s)
    (supportsOpus s) (now s) (timers s) (nextNode s) (liveStreams s)
    (mediaRequests s) (pending s) (requests s) (alerts s).

Definition set_isRecording (v : bool) (s : State) : State :=
  mkState (mediaRecorder s) (audioChunks s) v (statusIndicator s)
    (audioStream s) (userInput s) (voiceStatus s) (chatContainer s)
    (voiceBtn s) (audioPlayer s) (mediaSupported s) (supportsWebm s)
    (supportsOpus s) (now s) (timers s) (nextNode s) (liveStreams s)
    (mediaRequests s) (pending s) (requests s) (alerts s).

Definition set_statusIndicator (v : option NodeId) (s : State) : State :=
  mkState (mediaRecorder s) (audioChunks s) (isRecording s) v (audioStream s)
    (userInput s) (voiceStatus s) (chatContainer s) (voiceBtn s)
    (audioPlayer s) (mediaSupported s) (supportsWebm s) (supportsOpus s)
    (now s) (timers s) (nextNode s) (liveStreams s) (mediaRequests s)
    (pending s) (requests s) (alerts s).

Definition set_audioStream (v : option StreamId) (s : State) : State :=
  mkState (mediaRecorder s) (audioChunks s) (isRecording s)
    (statusIndicator s) v (userInput s) (voiceStatus s) (chatContainer s)
    (voiceBtn s) (audioPlayer s) (mediaSupported s) (supportsWebm s)
    (supportsOpus s) (now s) (timers s) (nextNode s) (liveStreams s)
    (mediaRequests s) (pending s) (requests s) (alerts s).

Definition set_userInput (v : string) (s : State) : State :=
  mkState (mediaRecorder s) (audioChunks s) (isRecording s)
    (statusIndicator s) (audioStream s) v (voiceStatus s) (chatContainer s)
    (voiceBtn s) (audioPlayer s) (mediaSupported s) (supportsWebm s)
    (supportsOpus s) (now s) (timers s) (nextNode s) (liveStreams s)
    (mediaRequests s) (pending s) (requests s) (alerts s).

Definition set_voiceStatus (v : option StatusNode) (s : State) : State :=
  mkState (mediaRecorder s) (audioChunks s) (isRecording s)
    (statusIndicator s) (audioStream s) (userInput s) v (chatContainer s)
    (voiceBtn s) (audioPlayer s) (mediaSupported s) (supportsWebm s)
    (supportsOpus s) (now s) (timers s) (nextNode s) (liveStreams s)
    (mediaRequests s) (pending s) (requests s) (alerts s).

Definition set_chatContainer (v : list ChatNode) (s : State) : State :=
  mkState (mediaRecorder s) (audioChunks s) (isRecording s)
    (statusIndicator s) (audioStream s) (userInput s) (voiceStatus s) v
    (voiceBtn s) (audioPlayer s) (mediaSupported s) (supportsWebm s)
    (supportsOpus s) (now s) (timers s) (nextNode s) (liveStreams s)
    (mediaRequests s) (pending s) (requests s) (alerts s).

Definition set_voiceBtn (v : bool) (s : State) : State :=
  mkState (mediaRecorder s) (audioChunks s) (isRecording s)
    (statusIndicator s) (audioStream s) (userInput s) (voiceStatus s)
    (chatContainer s) v (audioPlayer s) (mediaSupported s) (supportsWebm s)
    (supportsOpus s) (now s) (timers s) (nextNode s) (liveStreams s)
    (mediaRequests s) (pending s) (requests s) (alerts s).

Definition set_audioPlayer (v : option string) (s : State) : State :=
  mkState (mediaRecorder s) (audioChunks s) (isRecording s)
    (statusIndicator s) (audioStream s) (userInput s) (voiceStatus s)
    (chatContainer s) (voiceBtn s) v (mediaSupported s) (supportsWebm s)
    (supportsOpus s) (now s) (timers s) (nextNode s) (liveStreams s)
    (mediaRequests s) (pending s) (requests s) (alerts s).

Definition set_now (v : N) (s : State) : State :=
  mkState (mediaRecorder s) (audioChunks s) (isRecording s)
    (statusIndicator s) (audioStream s) (userInput s) (voiceStatus s)
    (chatContainer s) (voiceBtn s) (audioPlayer s) (mediaSupported s)
    (supportsWebm s) (supportsOpus s) v (timers s) (nextNode s)
    (liveStreams s) (mediaRequests s) (pending s) (requests s) (alerts s).

Definition set_timers (v : list (N * TimerCb)) (s : State) : State :=
  mkState (mediaRecorder s) (audioChunks s) (isRecording s)
    (statusIndicator s) (audioStream s) (userInput s) (voiceStatus s)
    (chatContainer s) (voiceBtn s) (audioPlayer s) (mediaSupported s)
    (supportsWebm s) (supportsOpus s) (now s) v (nextNode s) (liveStreams s)
    (mediaRequests s) (pending s) (requests s) (alerts s).

Definition set_nextNode (v : NodeId) (s : State) : State :=
  mkState (mediaRecorder s) (audioChunks s) (isRecording s)
    (statusIndicator s) (audioStream s) (userInput s) (voiceStatus s)
    (chatContainer s) (voiceBtn s) (audioPlayer s) (mediaSupported s)
    (supportsWebm s) (supportsOpus s) (now s) (timers s) v (liveStreams s)
    (mediaRequests s) (pending s) (requests s) (alerts s).

Definition set_liveStreams (v : list StreamId) (s : State) : State :=
  mkState (mediaRecorder s) (audioChunks s) (isRecording s)
    (statusIndicator s) (audioStream s) (userInput s) (voiceStatus s)
    (chatContainer s) (voiceBtn s) (audioPlayer s) (mediaSupported s)
    (supportsWebm s) (supportsOpus s) (now s) (timers s) (nextNode s) v
    (mediaRequests s) (pending s) (requests s) (alerts s).

Definition set_mediaRequests (v : nat) (s : State) : State :=
  mkState (mediaRecorder s) (audioChunks s) (isRecording s)
    (statusIndicator s) (audioStream s) (userInput s) (voiceStatus s)
    (chatContainer s) (voiceBtn s) (audioPlayer s) (mediaSupported s)
    (supportsWebm s) (supportsOpus s) (now s) (timers s) (nextNode s)
    (liveStreams s) v (pending s) (requests s) (alerts s).

Definition set_pending (v : list Async) (s : State) : State :=
  mkState (mediaRecorder s) (audioChunks s) (isRecording s)
    (statusIndicator s) (audioStream s) (userInput s) (voiceStatus s)
    (chatContainer s) (voiceBtn s) (audioPlayer s) (mediaSupported s)
    (supportsWebm s) (supportsOpus s) (now s) (timers s) (nextNode s)
    (liveStreams s) (mediaRequests s) v (requests s) (alerts s).

Definition set_requests (v : list Request) (s : State) : State :=
  mkState (mediaRecorder s) (audioChunks s) (isRecording s)
    (statusIndicator s) (audioStream s) (userInput s) (voiceStatus s)
    (chatContainer s) (voiceBtn s) (audioPlayer s) (mediaSupported s)
    (supportsWebm s) (supportsOpus s) (now s) (timers s) (nextNode s)
    (liveStreams s) (mediaRequests s) (pending s) v (alerts s).

Definition set_alerts (v : list string) (s : State) : State :=
  mkState (mediaRecorder s) (audioChunks s) (isRecording s)
    (statusIndicator s) (audioStream s) (userInput s) (voiceStatus s)
    (chatContainer s) (voiceBtn s) (audioPlayer s) (mediaSupported s)
    (supportsWebm s) (supportsOpus s) (now s) (timers s) (nextNode s)
    (liveStreams s) (mediaRequests s) (pending s) (requests s) v.

Definition initial : State :=
  mkState None [] false None None "" None [Placeholder] false None
    true true true 0%N [] 0 [] 0 [] [] [].

(** ** Exceptions over the state *)

Definition M (A : Type) : Type := State -> (Err + A) * State.

Definition ret {A : Type} (a : A) : M A := fun s => (inr a, s).

Definition bind {A B : Type} (m : M A) (k : A -> M B) : M B :=
  fun s =>
    match m s with
    | (inl e, s') => (inl e, s')
    | (inr a, s') => k a s'
    end.

Definition throw {A : Type} (e : Err) : M A := fun s => (inl e, s).

Definition tryCatch {A : Type} (body : M A) (handler : Err -> M A) : M A :=
  fun s =>
    match body s with
    | (inl e, s') => handler e s'
    | (inr a, s') => (inr a, s')
    end.

Definition tryFinally {A : Type} (body : M A) (fin : M unit) : M A :=
  fun s =>
    let (r, s') := body s in
    match fin s' with
    | (inl e, s'') => (inl e, s'')
    | (inr _, s'') => (r, s'')
    end.

Definition gets {A : Type} (f : State -> A) : M A := fun s => (inr (f s), s).
Definition modify (f : State -> State) : M unit := fun s => (inr tt, f s).

(** State in which a handler leaves the page; a handler's uncaught
    exception is reported on the console and changes nothing more. *)
Definition exec {A : Type} (m : M A) (s : State) : State := snd (m s).

Declare Scope js_scope.
Delimit Scope js_scope with js.
Notation "x <- c ;; k" := (bind c (fun x => k))
  (at level 61, c at next level, right associativity) : js_scope.
Notation "c ;; k" := (bind c (fun _ => k))
  (at level 61, right associativity) : js_scope.
Local Open Scope js_scope.

(** ** What the browser does for the script *)

Definition Async_eqb (a b : Async) : bool :=
  match a, b with
  | AwaitMedia, AwaitMedia | AwaitStop, AwaitStop
  | AwaitTranscribe, AwaitTranscribe | AwaitPlay, AwaitPlay => true
  | AwaitTurn m, AwaitTurn n => Nat.eqb m n
  | _, _ => false
  end.

Fixpoint removeFirst (a : Async) (l : list Async) : list Async :=
  match l with
  | [] => []
  | b :: r => if Async_eqb a b then r else b :: removeFirst a r
  end.

Definition awaited (a : Async) (s : State) : bool :=
  existsb (Async_eqb a) (pending s).

Definition settle (a : Async) (s : State) : State :=
  set_pending (removeFirst a (pending s)) s.

Definition await (a : Async) (s : State) : State :=
  set_pending (pending s ++ [a]) s.

(** [setTimeout(cb, delay)] *)
Definition setTimeout (cb : TimerCb) (delay : N) (s : State) : State :=
  set_timers (timers s ++ [((now s + delay)%N, cb)]) s.

(** [fetch(...)]: the request leaves, its promise is awaited. *)
Definition fetch (req : Request) (a : Async) (s : State) : State :=
  await a (set_requests (requests s ++ [req]) s).

(** [navigator.mediaDevices.getUserMedia({ audio: true })] *)
Definition getUserMedia (s : State) : State :=
  await AwaitMedia (set_mediaRequests (S (mediaRequests s)) s).

(** [audioStream.getTracks().forEach(track => track.stop())] *)
Definition stopTracks (stream : StreamId) (s : State) : State :=
  set_liveStreams
    (filter (fun x => negb (Nat.eqb x stream)) (liveStreams s)) s.

Definition awaitFetch (o : FetchOutcome) : M Response :=
  match o with
  | Rejected e => throw e
  | Resolved r => ret r
  end.

(** [await response.json()] *)
Definition json (r : Response) : M Data :=
  match r_json r with
  | inl e => throw e
  | inr d => ret d
  end.

(** [await response.json().catch(() => ({}))] *)
Definition jsonOrEmpty (r : Response) : Data :=
  match r_json r with
  | inl _ => emptyObject
  | inr d => d
  end.

(** ** The script's functions *)

(** [updateStatusIndicator(message, type)].  The timer's callback is
    [hideInfo] below: it reads the variable [statusIndicator] when it runs. *)
Definition updateStatusIndicator (message : string) (type : Severity)
    (s : State) : State :=
  let s := set_voiceStatus None s in
  let node := nextNode s in
  let s := set_nextNode (S node) s in
  let s := set_statusIndicator (Some node) s in
  let s := set_voiceStatus (Some (mkStatus node message type)) s in
  match type with
  | info => setTimeout HideInfo 5000%N s
  | _ => s
  end.

(** The callback of the timer set by [updateStatusIndicator]:
    [if (statusIndicator && statusIndicator.parentElement)
       statusIndicator.remove()]. *)
Definition hideInfo (s : State) : State :=
  match statusIndicator s, voiceStatus s with
  | Some node, Some st =>
      if Nat.eqb node (st_node st) then set_voiceStatus None s else s
  | _, _ => s
  end.

Definition updateVoiceButtonState (rec : bool) (s : State) : State :=
  set_voiceBtn rec (set_isRecording rec s).

Fixpoint removePlaceholder (l : list ChatNode) : list ChatNode :=
  match l with
  | [] => []
  | Placeholder :: r => r
  | n :: r => n :: removePlaceholder r
  end.

Definition addMessageToChat (sender : Sender) (text : string) (s : State)
    : State :=
  set_chatContainer
    (removePlaceholder (chatContainer s) ++ [Message sender text (now s)]) s.

Definition showTypingIndicator (s : State) : NodeId * State :=
  let node := nextNode s in
  (node,
   set_chatContainer (chatContainer s ++ [TypingIndicator node])
     (set_nextNode (S node) s)).

Definition isNode (node : NodeId) (n : ChatNode) : bool :=
  match n with
  | TypingIndicator m => Nat.eqb m node
  | _ => false
  end.

(** [typingIndicator.remove()] *)
Definition removeNode (node : NodeId) (s : State) : State :=
  set_chatContainer
    (filter (fun n => negb (isNode node n)) (chatContainer s)) s.

(** [processUserInput(text)], up to its [await fetch]. *)
Definition processUserInput (text : string) (s : State) : State :=
  if negb (truthy text) || negb (truthy (trim text)) then s
  else
    let inputText := trim text in
    let s := addMessageToChat user inputText s in
    let s := set_userInput "" s in
    let s := set_voiceStatus None s in
    let (typingIndicator, s) := showTypingIndicator s in
    fetch (ProcessInput inputText) (AwaitTurn typingIndicator) s.

Definition throwUnlessOk (response : Response) : M unit :=
  if negb (r_ok response) then
    let errorData := jsonOrEmpty response in
    throw (new_Error (orElse (d_error errorData)
                        ("Server error: " ++ ofNat (r_status response))))
  else ret tt.

Definition throwIfError (data : Data) : M unit :=
  if truthyO (d_error data) then throw (new_Error (display (d_error data)))
  else ret tt.

(** [audioPlayer.play()] *)
Definition play (s : State) : State := await AwaitPlay s.

(** [processUserInput], from the moment its [fetch] settles. *)
Definition processUserInput_resume (typingIndicator : NodeId)
    (o : FetchOutcome) : M unit :=
  tryCatch
    (response <- awaitFetch o ;;
     throwUnlessOk response ;;
     data <- json response ;;
     modify (removeNode typingIndicator) ;;
     throwIfError data ;;
     modify (addMessageToChat ai (display (d_text data))) ;;
     if truthyO (d_audio data) then
       modify (set_audioPlayer
                 (Some ("data:audio/mp3;base64," ++ display (d_audio data)))) ;;
       modify play
     else
       modify (updateStatusIndicator "Response received (no audio)" info))
    (fun e =>
       modify (removeNode typingIndicator) ;;
       let errorMsg :=
         if truthy (err_message e) then err_message e
         else "Sorry, I encountered an error. Please try again." in
       modify (addMessageToChat ai ("Error: " ++ errorMsg)) ;;
       modify (updateStatusIndicator errorMsg error)).

(** The rejection handler of [audioPlayer.play()]. *)
Definition onPlayRejected (s : State) : State :=
  updateStatusIndicator
    "Audio playback failed. Text response is available above." error s.

(** The callback of the timer set after a transcription. *)
Definition autoSubmit (s : State) : State :=
  if truthy (trim (userInput s)) then
    set_userInput "" (processUserInput (trim (userInput s)) s)
  else s.

(** [mediaRecorder.ondataavailable] *)
Definition ondataavailable (data : Blob) (s : State) : State :=
  if Nat.ltb 0 (blob_size data) then set_audioChunks (audioChunks s ++ [data]) s
  else s.

(** [processRecordedAudio()], up to its [await fetch]; the boolean tells
    whether it is suspended there ([true]) or has returned ([false]). *)
Definition processRecordedAudio (s : State) : bool * State :=
  if Nat.eqb (length (audioChunks s)) 0 then
    (false, updateStatusIndicator "No audio recorded. Please try again." error s)
  else
    let audioBlob := new_Blob (audioChunks s) in
    let s := updateStatusIndicator "Transcribing audio..." info s in
    (true, fetch (TranscribeAudio audioBlob) AwaitTranscribe s).

(** [processRecordedAudio], from the moment its [fetch] settles. *)
Definition processRecordedAudio_resume (o : FetchOutcome) : M unit :=
  tryFinally
    (tryCatch
       (response <- awaitFetch o ;;
        throwUnlessOk response ;;
        data <- json response ;;
        throwIfError data ;;
        if truthyO (d_text data) && truthy (trim (display (d_text data))) then
          modify (set_userInput (trim (display (d_text data)))) ;;
          modify (updateStatusIndicator
                    "Transcription complete! Click send or record again." info) ;;
          modify (setTimeout AutoSubmit 1000%N)
        else
          modify (updateStatusIndicator
                    "No speech detected. Please try again." error))
       (fun e =>
          modify (updateStatusIndicator ("Error: " ++ err_message e) error)))
    (modify (set_audioChunks [])).

(** The end of [mediaRecorder.onstop]: stop all tracks. *)
Definition releaseStream (s : State) : State :=
  match audioStream s with
  | Some stream => set_audioStream None (stopTracks stream s)
  | None => s
  end.

(** [mediaRecorder.onstop], up to the [await] inside
    [processRecordedAudio]. *)
Definition onstop (s : State) : State :=
  let (suspended, s') := processRecordedAudio s in
  if suspended then s' else releaseStream s'.

(** [mediaRecorder.onstop], from the moment the transcription settles. *)
Definition onstop_resume (o : FetchOutcome) : M unit :=
  processRecordedAudio_resume o ;;
  modify releaseStream.

(** [mediaRecorder.stop()]: the recorder becomes inactive and owes a last
    [dataavailable] and a [stop] event; nothing on an inactive recorder. *)
Definition recorder_stop (s : State) : State :=
  match mediaRecorder s with
  | Some r =>
      match rec_state r with
      | recording =>
          await AwaitStop
            (set_mediaRecorder
               (Some (mkRecorder (rec_stream r) (rec_mimeType r) inactive)) s)
      | inactive => s
      end
  | None => s
  end.

Definition stopRecording (s : State) : State :=
  match mediaRecorder s with
  | Some _ =>
      if isRecording s then
        let s := recorder_stop s in
        let s := set_isRecording false s in
        let s := updateVoiceButtonState false s in
        updateStatusIndicator "Processing audio..." info s
      else s
  | None => s
  end.

(** [mediaRecorder.onerror] *)
Definition onerror (s : State) : State :=
  stopRecording
    (updateStatusIndicator "Recording error. Please try again." error s).

(** [startRecording()], up to its [await getUserMedia]. *)
Definition startRecording (s : State) : State :=
  getUserMedia (updateStatusIndicator "Requesting microphone access..." info s).

Definition negotiateMimeType (s : State) : string :=
  if supportsWebm s then "audio/webm"
  else if supportsOpus s then "audio/webm;codecs=opus"
  else "".

(** [new MediaRecorder(audioStream, options)] *)
Definition new_MediaRecorder (stream : StreamId) (mimeType : string)
    (setup : Setup) : M Recorder :=
  match setup with
  | ConstructorThrows e => throw e
  | _ => ret (mkRecorder stream mimeType inactive)
  end.

(** [mediaRecorder.start()] *)
Definition recorder_start (setup : Setup) : M unit :=
  match setup with
  | StartThrows e => throw e
  | _ =>
      modify (fun s =>
        match mediaRecorder s with
        | Some r =>
            set_mediaRecorder
              (Some (mkRecorder (rec_stream r) (rec_mimeType r) recording)) s
        | None => s
        end)
  end.

Definition startErrorMessage (e : Err) : string :=
  let errorMsg := "Failed to start recording. " in
  if String.eqb (err_name e) "NotAllowedError"
     || String.eqb (err_name e) "PermissionDeniedError" then
    errorMsg ++ "Microphone permission denied. Please allow microphone access."
  else if String.eqb (err_name e) "NotFoundError"
          || String.eqb (err_name e) "DevicesNotFoundError" then
    errorMsg ++ "No microphone found. Please connect a microphone."
  else
    errorMsg ++ (if truthy (err_message e) then err_message e
                 else "Please try again.").

(** [startRecording], from the moment [getUserMedia] settles. *)
Definition startRecording_resume (o : MediaOutcome) : M unit :=
  tryCatch
    (match o with
     | Denied e => throw e
     | Granted stream setup =>
         modify (set_audioStream (Some stream)) ;;
         mimeType <- gets negotiateMimeType ;;
         r <- new_MediaRecorder stream mimeType setup ;;
         modify (set_mediaRecorder (Some r)) ;;
         modify (set_audioChunks []) ;;
         recorder_start setup ;;
         modify (set_isRecording true) ;;
         modify (updateVoiceButtonState true) ;;
         modify (updateStatusIndicator
                   "Recording... Speak now! (Click stop when done)" listening)
     end)
    (fun e =>
       modify (updateStatusIndicator (startErrorMessage e) error) ;;
       modify (updateVoiceButtonState false)).

Definition toggleVoiceRecording (s : State) : State :=
  if negb (mediaSupported s) then
    set_alerts
      (alerts s ++
       ["Audio recording is not supported in your browser. Please use a modern browser like Chrome, Edge, or Firefox."])
      s
  else if isRecording s then stopRecording s
  else startRecording s.

(** The click handler of the send button. *)
Definition onSendClick (s : State) : State :=
  let text := trim (userInput s) in
  if truthy text then set_userInput "" (processUserInput text s) else s.

(** The [keypress] handler of the input field. *)
Definition onKeyPress (key : string) (shiftKey : bool) (s : State) : State :=
  if String.eqb key "Enter" && negb shiftKey then onSendClick s else s.

(** ** The event loop *)

(** Timers that are due by [t], earliest first; timers with the same due
    time keep the order in which they were set. *)
Fixpoint insertTimer (x : N * TimerCb) (l : list (N * TimerCb))
    : list (N * TimerCb) :=
  match l with
  | [] => [x]
  | y :: r => if N.ltb (fst x) (fst y) then x :: l else y :: insertTimer x r
  end.

Definition byDueTime (l : list (N * TimerCb)) : list (N * TimerCb) :=
  fold_left (fun acc x => insertTimer x acc) l [].

Definition runTimer (s : State) (x : N * TimerCb) : State :=
  let s := set_now (N.max (now s) (fst x)) s in
  match snd x with
  | HideInfo => hideInfo s
  | AutoSubmit => autoSubmit s
  end.

(** Time passes until [t]: the timers due by then run.  Neither callback
    sets a timer, so the timers left are exactly those not yet due. *)
Definition advance (t : N) (s : State) : State :=
  let due := filter (fun x => N.leb (fst x) t) (timers s) in
  let later := filter (fun x => negb (N.leb (fst x) t)) (timers s) in
  let s := fold_left runTimer (byDueTime due) (set_timers later s) in
  set_now (N.max (now s) t) s.

Inductive Event : Type :=
| VoiceClick
| SpaceKey (inputFocused onControl : bool)
| SendClick
| KeyPress (key : string) (shiftKey : bool)
| Typed (value : string)
| MediaSettled (o : MediaOutcome)
| DataAvailable (data : Blob)
| RecorderError
| RecorderStopped
| TranscribeSettled (o : FetchOutcome)
| TurnSettled (typingIndicator : NodeId) (o : FetchOutcome)
| PlayRejected
| Advance (t : N).

(** The stream that [getUserMedia] resolves with is live. *)
Definition grant (o : MediaOutcome) (s : State) : State :=
  match o with
  | Granted stream _ => set_liveStreams (stream :: liveStreams s) s
  | Denied _ => s
  end.

Definition onMediaSettled (o : MediaOutcome) (s : State) : State :=
  exec (startRecording_resume o) (grant o (settle AwaitMedia s)).

Definition onRecorderStopped (s : State) : State :=
  onstop (settle AwaitStop s).

Definition onTranscribeSettled (o : FetchOutcome) (s : State) : State :=
  exec (onstop_resume o) (settle AwaitTranscribe s).

Definition onTurnSettled (typingIndicator : NodeId) (o : FetchOutcome)
    (s : State) : State :=
  exec (processUserInput_resume typingIndicator o)
    (settle (AwaitTurn typingIndicator) s).

Definition hasRecorder (s : State) : bool :=
  match mediaRecorder s with Some _ => true | None => false end.

(** One turn of the event loop.  An event that the browser cannot deliver
    in [s] (a promise that nobody awaits, a recorder event with no
    recorder) leaves [s] as it is. *)
Definition step (s : State) (ev : Event) : State :=
  match ev with
  | VoiceClick => toggleVoiceRecording s
  | SpaceKey inputFocused onControl =>
      if negb inputFocused && negb onControl then toggleVoiceRecording s
      else s
  | SendClick => onSendClick s
  | KeyPress key shiftKey => onKeyPress key shiftKey s
  | Typed value => set_userInput value s
  | MediaSettled o =>
      if awaited AwaitMedia s then onMediaSettled o s else s
  | DataAvailable data =>
      if hasRecorder s then ondataavailable data s else s
  | RecorderError =>
      if hasRecorder s then onerror s else s
  | RecorderStopped =>
      if awaited AwaitStop s then onRecorderStopped s else s
  | TranscribeSettled o =>
      if awaited AwaitTranscribe s then onTranscribeSettled o s else s
  | TurnSettled typingIndicator o =>
      if awaited (AwaitTurn typingIndicator) s
      then onTurnSettled typingIndicator o s else s
  | PlayRejected =>
      if awaited AwaitPlay s then onPlayRejected (settle AwaitPlay s) else s
  | Advance t => advance t s
  end.

Definition run (evs : list Event) (s : State) : State := fold_left step evs s.

(** The fetches the script issued between two states. *)
Definition issued (before after : State) : list Request :=
  skipn (length (requests before)) (requests after).

(** ** Vocabulary of the properties *)

(** The chunks that the recorder hands to [ondataavailable], in order. *)
Definition deliver (chunks : list Blob) (s : State) : State :=
  fold_left (fun s data => ondataavailable data s) chunks s.

Definition hasData (data : Blob) : bool := Nat.ltb 0 (blob_size data).

(** Text and type of the notice on the page. *)
Definition notice (s : State) : option (string * Severity) :=
  match voiceStatus s with
  | Some st => Some (st_message st, st_type st)
  | None => None
  end.

(** A successful response [{ text }] of the transcription endpoint. *)
Definition transcript (status : nat) (text : string) : FetchOutcome :=
  Resolved (mkResponse true status (inr (mkData None (Some text) None))).

(** A successful response [{ text, audio? }] of the reasoning endpoint. *)
Definition reply (status : nat) (text : string) (audio : option string)
    : FetchOutcome :=
  Resolved (mkResponse true status (inr (mkData None (Some text) audio))).

(** The ways a request fails, each with the detail the failure carries:
    the network error's message, the body's [error] or else the status
    for a non-success status, the populated [error] field of a success
    response, and the parser's message for a body that is not JSON. *)
Inductive Failure : FetchOutcome -> string -> Prop :=
| NetworkError (e : Err) :
    Failure (Rejected e) (err_message e)
| StatusWithDetail (status : nat) (d : Data) (msg : string) :
    d_error d = Some msg -> truthy msg = true ->
    Failure (Resolved (mkResponse false status (inr d))) msg
| StatusAlone (status : nat) (j : Err + Data) :
    truthyO (d_error (jsonOrEmpty (mkResponse false status j))) = false ->
    Failure (Resolved (mkResponse false status j))
      ("Server error: " ++ ofNat status)
| ErrorField (status : nat) (d : Data) (msg : string) :
    d_error d = Some msg -> truthy msg = true ->
    Failure (Resolved (mkResponse true status (inr d))) msg
| BodyUnreadable (status : nat) (e : Err) :
    Failure (Resolved (mkResponse true status (inl e))) (err_message e).

(** What the catch branch of [processUserInput] shows for a detail. *)
Definition shown (detail : string) : string :=
  if truthy detail then detail
  else "Sorry, I encountered an error. Please try again.".

(** What the [catch] branch of [processUserInput] does to the page. *)
Definition reportFailure (typingIndicator : NodeId) (detail : string)
    (s : State) : State :=
  updateStatusIndicator (shown detail) error
    (addMessageToChat ai ("Error: " ++ shown detail)
       (removeNode typingIndicator s)).

From Stdlib Require Import Lia.

(** What the [try] branch of [processUserInput] does to the page once the
    reply is read: the text is shown, the audio played if there is any. *)
Definition renderReply (typingIndicator : NodeId) (data : Data) (s : State)
    : State :=
  let s := addMessageToChat ai (display (d_text data))
             (removeNode typingIndicator s) in
  if truthyO (d_audio data) then
    play (set_audioPlayer
            (Some ("data:audio/mp3;base64," ++ display (d_audio data))) s)
  else updateStatusIndicator "Response received (no audio)" info s.

(** What [processRecordedAudio] does with the body of a successful
    transcription. *)
Definition hearTranscript (data : Data) (s : State) : State :=
  if truthyO (d_text data) && truthy (trim (display (d_text data))) then
    setTimeout AutoSubmit 1000%N
      (updateStatusIndicator
         "Transcription complete! Click send or record again." info
         (set_userInput (trim (display (d_text data))) s))
  else updateStatusIndicator "No speech detected. Please try again." error s.

(** A response that is no failure: success status, a body that parses and
    no populated [error] in it. *)
Definition succeeded (o : FetchOutcome) (data : Data) : Prop :=
  exists status,
    o = Resolved (mkResponse true status (inr data)) /\
    truthyO (d_error data) = false.

(** The variable [statusIndicator] refers to the notice on the page. *)
Definition Linked (s : State) : Prop :=
  match voiceStatus s with
  | Some st => statusIndicator s = Some (st_node st)
  | None => True
  end.

(** The voice button shows the flag, and the flag is only set when the
    script has a recorder. *)
Definition FlagConsistent (s : State) : Prop :=
  voiceBtn s = isRecording s /\
  (isRecording s = true -> hasRecorder s = true).

(** The stream the script holds is live. *)
Definition HeldStreamLive (s : State) : Prop :=
  match audioStream s with
  | Some stream => In stream (liveStreams s)
  | None => True
  end.

Definition isMessage (n : ChatNode) : bool :=
  match n with Message _ _ _ => true | _ => false end.

(** The entries of the conversation, oldest first. *)
Definition messagesOf (l : list ChatNode) : list ChatNode :=
  filter isMessage l.

(** The typing indicators in the chat, by node. *)
Fixpoint typingIds (l : list ChatNode) : list NodeId :=
  match l with
  | [] => []
  | TypingIndicator n :: r => n :: typingIds r
  | _ :: r => typingIds r
  end.

(** The turns in flight, by the typing indicator each one holds. *)
Fixpoint turnIds (l : list Async) : list NodeId :=
  match l with
  | [] => []
  | AwaitTurn n :: r => n :: turnIds r
  | _ :: r => turnIds r
  end.

(** Every turn in flight has its typing indicator in the chat and every
    typing indicator belongs to a turn in flight. *)
Definition TypingMatchesTurns (s : State) : Prop :=
  typingIds (chatContainer s) = turnIds (pending s) /\
  NoDup (turnIds (pending s)) /\
  Forall (fun n => n < nextNode s) (turnIds (pending s)).

(** The conversation of [s'] continues that of [s]. *)
Definition ChatGrows (s s' : State) : Prop :=
  exists extra,
    messagesOf (chatContainer s')
    = (messagesOf (chatContainer s) ++ extra)%list.

(** A handler that touches neither typing indicators nor turns. *)
Definition TurnsFrame (s s' : State) : Prop :=
  typingIds (chatContainer s') = typingIds (chatContainer s) /\
  turnIds (pending s') = turnIds (pending s) /\
  nextNode s <= nextNode s'.




Definition isNot (n m : NodeId) : bool := negb (Nat.eqb m n).

(** * The first client script: speech recognition in the browser

    [static/js/script.js] has the same page and the same reasoning
    endpoint, and takes the transcript from the browser's own speech
    recognition.  Its chat entries carry no time, it shows no notices, and
    its [processUserInput] neither trims nor clears. *)

Module SpeechScript.

Inductive Node : Type :=
| Entry (sender : Sender) (text : string)
| Typing (node : NodeId).

Inductive Wait : Type :=
| WaitTurn (typingIndicator : NodeId)
| WaitPlay.

Record Page : Type := mkPage {
  recognition : bool;
    (* the recognizer exists: 'webkitSpeechRecognition' in window *)
  started : bool;
    (* the browser's recognizer is running *)
  isListening : bool;
    (* script variable isListening *)
  userInput : string;
    (* userInput.value *)
  chatContainer : list Node;
    (* children of the chat container, oldest first *)
  voiceBtn : bool;
    (* true when the voice button shows the stop icon *)
  audioPlayer : option string;
    (* audioPlayer.src *)
  nextNode : NodeId;
    (* identity of the next typing indicator *)
  pending : list Wait;
    (* asynchronous operations not yet settled *)
  requests : list string
    (* the [input] of every request posted, oldest first *)
}.

Definition set_started (v : bool) (p : Page) : Page :=
  mkPage (recognition p) v (isListening p) (userInput p) (chatContainer p)
    (voiceBtn p) (audioPlayer p) (nextNode p) (pending p) (requests p).

Definition set_isListening (v : bool) (p : Page) : Page :=
  mkPage (recognition p) (started p) v (userInput p) (chatContainer p)
    (voiceBtn p) (audioPlayer p) (nextNode p) (pending p) (requests p).

Definition set_userInput (v : string) (p : Page) : Page :=
  mkPage (recognition p) (started p) (isListening p) v (chatContainer p)
    (voiceBtn p) (audioPlayer p) (nextNode p) (pending p) (requests p).

Definition set_chatContainer (v : list Node) (p : Page) : Page :=
  mkPage (recognition p) (started p) (isListening p) (userInput p) v
    (voiceBtn p) (audioPlayer p) (nextNode p) (pending p) (requests p).

Definition set_voiceBtn (v : bool) (p : Page) : Page :=
  mkPage (recognition p) (started p) (isListening p) (userInput p)
    (chatContainer p) v (audioPlayer p) (nextNode p) (pending p) (requests p).

Definition set_audioPlayer (v : option string) (p : Page) : Page :=
  mkPage (recognition p) (started p) (isListening p) (userInput p)
    (chatContainer p) (voiceBtn p) v (nextNode p) (pending p) (requests p).

Definition set_nextNode (v : NodeId) (p : Page) : Page :=
  mkPage (recognition p) (started p) (isListening p) (userInput p)
    (chatContainer p) (voiceBtn p) (audioPlayer p) v (pending p) (requests p).

Definition set_pending (v : list Wait) (p : Page) : Page :=
  mkPage (recognition p) (started p) (isListening p) (userInput p)
    (chatContainer p) (voiceBtn p) (audioPlayer p) (nextNode p) v (requests p).

Definition set_requests (v : list string) (p : Page) : Page :=
  mkPage (recognition p) (started p) (isListening p) (userInput p)
    (chatContainer p) (voiceBtn p) (audioPlayer p) (nextNode p) (pending p) v.

Definition initial : Page :=
  mkPage true false false "" [] false None 0 [] [].

(** Exceptions over the page, as for the other script. *)
Definition M (A : Type) : Type := Page -> (Err + A) * Page.

Definition ret {A : Type} (a : A) : M A := fun p => (inr a, p).

Definition bind {A B : Type} (m : M A) (k : A -> M B) : M B :=
  fun p =>
    match m p with
    | (inl e, p') => (inl e, p')
    | (inr a, p') => k a p'
    end.

Definition throw {A : Type} (e : Err) : M A := fun p => (inl e, p).

Definition tryCatch {A : Type} (body : M A) (handler : Err -> M A) : M A :=
  fun p =>
    match body p with
    | (inl e, p') => handler e p'
    | (inr a, p') => (inr a, p')
    end.

Definition modify (f : Page -> Page) : M unit := fun p => (inr tt, f p).

Definition exec {A : Type} (m : M A) (p : Page) : Page := snd (m p).

Definition updateVoiceButtonState (listening : bool) (p : Page) : Page :=
  set_voiceBtn listening (set_isListening listening p).

Definition addMessageToChat (sender : Sender) (text : string) (p : Page)
    : Page :=
  set_chatContainer (chatContainer p ++ [Entry sender text]) p.

Definition showTypingIndicator (p : Page) : NodeId * Page :=
  let node := nextNode p in
  (node,
   set_chatContainer (chatContainer p ++ [Typing node])
     (set_nextNode (S node) p)).

Definition isNode (node : NodeId) (n : Node) : bool :=
  match n with
  | Typing m => Nat.eqb m node
  | Entry _ _ => false
  end.

(** [typingIndicator.remove()] *)
Definition removeNode (node : NodeId) (p : Page) : Page :=
  set_chatContainer
    (filter (fun n => negb (isNode node n)) (chatContainer p)) p.

(** [processUserInput(text)], up to its [await fetch]. *)
Definition processUserInput (text : string) (p : Page) : Page :=
  let p := addMessageToChat user text p in
  let (typingIndicator, p) := showTypingIndicator p in
  set_pending (pending p ++ [WaitTurn typingIndicator])
    (set_requests (requests p ++ [text]) p).

Definition apology : string :=
  "Sorry, I encountered an error. Please try again.".

(** [processUserInput], from the moment its [fetch] settles. *)
Definition processUserInput_resume (typingIndicator : NodeId)
    (o : FetchOutcome) : M unit :=
  tryCatch
    (bind (match o with
           | Rejected e => throw e
           | Resolved r => ret r
           end)
       (fun response =>
     bind (if negb (r_ok response)
           then throw (new_Error "Network response was not ok")
           else ret tt)
       (fun _ =>
     bind (match r_json response with
           | inl e => throw e
           | inr d => ret d
           end)
       (fun data =>
     bind (modify (removeNode typingIndicator))
       (fun _ =>
     bind (if truthyO (d_error data)
           then throw (new_Error (display (d_error data)))
           else ret tt)
       (fun _ =>
     bind (modify (addMessageToChat ai (display (d_text data))))
       (fun _ =>
     if truthyO (d_audio data) then
       modify (fun p =>
         set_pending (pending p ++ [WaitPlay])
           (set_audioPlayer
              (Some ("data:audio/mp3;base64," ++ display (d_audio data))) p))
     else ret tt)))))))
    (fun _ =>
       bind (modify (removeNode typingIndicator))
         (fun _ => modify (addMessageToChat ai apology))).

Fixpoint removeFirst (w : NodeId) (l : list Wait) : list Wait :=
  match l with
  | [] => []
  | WaitTurn n :: r => if Nat.eqb n w then r else WaitTurn n :: removeFirst w r
  | x :: r => x :: removeFirst w r
  end.

Definition onTurnSettled (typingIndicator : NodeId) (o : FetchOutcome)
    (p : Page) : Page :=
  exec (processUserInput_resume typingIndicator o)
    (set_pending (removeFirst typingIndicator (pending p)) p).

(** [recognition.onresult], with the transcript of the first result. *)
Definition onresult (transcript : string) (p : Page) : Page :=
  processUserInput transcript (set_userInput transcript p).

(** [recognition.onerror] and [recognition.onend] *)
Definition onerror (p : Page) : Page := updateVoiceButtonState false p.
Definition onend (p : Page) : Page :=
  updateVoiceButtonState false (set_started false p).

(** [toggleVoiceRecognition()]; [recognition.start()] throws on a
    recognizer that is already running. *)
Definition toggleVoiceRecognition (p : Page) : Page :=
  if negb (recognition p) then p
  else if isListening p then p
  else if started p then updateVoiceButtonState false p
  else updateVoiceButtonState true (set_started true p).

Definition onSendClick (p : Page) : Page :=
  let text := trim (userInput p) in
  if truthy text then set_userInput "" (processUserInput text p) else p.

Definition onKeyPress (key : string) (shiftKey : bool) (p : Page) : Page :=
  if String.eqb key "Enter" && negb shiftKey then onSendClick p else p.

Inductive Event : Type :=
| VoiceClick
| SendClick
| KeyPress (key : string) (shiftKey : bool)
| Typed (value : string)
| Result (transcript : string)
| RecognitionError
| RecognitionEnd
| TurnSettled (typingIndicator : NodeId) (o : FetchOutcome).

Definition step (p : Page) (ev : Event) : Page :=
  match ev with
  | VoiceClick => toggleVoiceRecognition p
  | SendClick => onSendClick p
  | KeyPress key shiftKey => onKeyPress key shiftKey p
  | Typed value => set_userInput value p
  | Result transcript => if started p then onresult transcript p else p
  | RecognitionError => if started p then onerror p else p
  | RecognitionEnd => if started p then onend p else p
  | TurnSettled typingIndicator o =>
      if existsb (fun w => match w with
                           | WaitTurn n => Nat.eqb n typingIndicator
                           | WaitPlay => false
                           end) (pending p)
      then onTurnSettled typingIndicator o p else p
  end.

Definition run (evs : list Event) (p : Page) : Page := fold_left step evs p.

End SpeechScript.

(** * Properties *)

(** ** Strings *)

Lemma dropPrefix_app (p l r : list ascii) :
  dropPrefix p l = Some r -> l = (p ++ r)%list.
Proof.
  revert l. induction p as [|a p IH]; intros l; simpl.
  - intros [= ->]. reflexivity.
  - destruct l as [|b l]; [discriminate|].
    destruct (Ascii.eqb a b) eqn:E; [|discriminate].
    apply Ascii.eqb_eq in E. subst b. intros H. f_equal. apply IH, H.
Qed.

Lemma dropPrefix_more (p l r z : list ascii) :
  dropPrefix p l = Some r ->
  dropPrefix p (l ++ z)%list = Some (r ++ z)%list.
Proof.
  revert l. induction p as [|a p IH]; intros l; simpl.
  - intros [= ->]. reflexivity.
  - destruct l as [|b l]; [discriminate|]. simpl.
    destruct (Ascii.eqb a b); [apply IH | discriminate].
Qed.

Lemma dropOne_suffix (pats : list (list ascii)) (l r : list ascii) :
  dropOne pats l = Some r ->
  exists p, In p pats /\ l = (p ++ r)%list.
Proof.
  induction pats as [|p ps IH]; simpl; [discriminate|].
  destruct (dropPrefix p l) as [r'|] eqn:E.
  - intros [= ->]. exists p. split; [left; reflexivity|].
    apply dropPrefix_app, E.
  - intros H. destruct (IH H) as (q & Q & L). exists q. auto.
Qed.

Lemma dropOne_more (pats : list (list ascii)) (l z : list ascii) :
  dropOne pats l <> None -> dropOne pats (l ++ z)%list <> None.
Proof.
  induction pats as [|p ps IH]; simpl; [auto|].
  destruct (dropPrefix p l) as [r|] eqn:E.
  - intros _. rewrite (dropPrefix_more _ _ _ z E). discriminate.
  - intros H. destruct (dropPrefix p (l ++ z)%list); [discriminate | auto].
Qed.

Section Strip.

Variable pats : list (list ascii).
Hypothesis nonempty : Forall (fun p => p <> []) pats.

Lemma dropOne_shorter (l r : list ascii) :
  dropOne pats l = Some r -> length r < length l.
Proof.
  intros H. destruct (dropOne_suffix _ _ _ H) as (p & P & ->).
  rewrite Forall_forall in nonempty. specialize (nonempty p P).
  rewrite length_app. destruct p; [congruence | simpl; lia].
Qed.

Lemma dropOne_nil : dropOne pats [] = None.
Proof.
  destruct (dropOne pats []) as [r|] eqn:E; [|reflexivity].
  apply dropOne_shorter in E. simpl in E. lia.
Qed.

(** Enough rounds leave nothing to strip. *)
Lemma stripN_clean (n : nat) (l : list ascii) :
  length l <= n -> dropOne pats (stripN pats n l) = None.
Proof.
  revert l. induction n as [|n IH]; intros l H; simpl.
  - destruct l; [apply dropOne_nil | simpl in H; lia].
  - destruct (dropOne pats l) as [r|] eqn:E; [|exact E].
    apply IH. apply dropOne_shorter in E. lia.
Qed.

Lemma strip_clean (l : list ascii) : dropOne pats (strip pats l) = None.
Proof. apply stripN_clean. reflexivity. Qed.

Lemma strip_of_clean (l : list ascii) :
  dropOne pats l = None -> strip pats l = l.
Proof.
  unfold strip. destruct (length l); simpl; [reflexivity|].
  intros ->. reflexivity.
Qed.

Lemma strip_idem (l : list ascii) : strip pats (strip pats l) = strip pats l.
Proof. apply strip_of_clean, strip_clean. Qed.

Lemma stripN_suffix (n : nat) (l : list ascii) :
  exists w, l = (w ++ stripN pats n l)%list.
Proof.
  revert l. induction n as [|n IH]; intros l; simpl.
  - exists []. reflexivity.
  - destruct (dropOne pats l) as [r|] eqn:E; [|exists []; reflexivity].
    destruct (dropOne_suffix _ _ _ E) as (p & _ & ->).
    destruct (IH r) as [w' H]. exists (p ++ w')%list.
    rewrite <- app_assoc, <- H. reflexivity.
Qed.

End Strip.

Lemma whiteSpaceBytes_nonempty : Forall (fun p => p <> []) whiteSpaceBytes.
Proof. repeat constructor; discriminate. Qed.

Lemma whiteSpaceBytesRev_nonempty :
  Forall (fun p => p <> []) whiteSpaceBytesRev.
Proof. repeat constructor; discriminate. Qed.

Lemma trimEnd_idem (s : string) : trimEnd (trimEnd s) = trimEnd s.
Proof.
  unfold trimEnd.
  rewrite list_ascii_of_string_of_list_ascii, rev_involutive.
  rewrite (strip_idem _ whiteSpaceBytesRev_nonempty). reflexivity.
Qed.

(** Stripping the end of a string leaves its start as it is. *)
Lemma trimStart_trimEnd (s : string) :
  trimStart s = s -> trimStart (trimEnd s) = trimEnd s.
Proof.
  unfold trimStart, trimEnd. intros H.
  rewrite list_ascii_of_string_of_list_ascii. f_equal.
  apply strip_of_clean.
  destruct (dropOne whiteSpaceBytes
              (rev (strip whiteSpaceBytesRev (rev (list_ascii_of_string s)))))
    as [r|] eqn:E; [exfalso | reflexivity].
  destruct (stripN_suffix whiteSpaceBytesRev
              (length (rev (list_ascii_of_string s)))
              (rev (list_ascii_of_string s))) as [w W].
  fold (strip whiteSpaceBytesRev (rev (list_ascii_of_string s))) in W.
  apply (f_equal (@rev ascii)) in W.
  rewrite rev_involutive, rev_app_distr in W.
  assert (C : dropOne whiteSpaceBytes (list_ascii_of_string s) = None).
  { apply (f_equal list_ascii_of_string) in H.
    rewrite list_ascii_of_string_of_list_ascii in H.
    rewrite <- H. apply strip_clean, whiteSpaceBytes_nonempty. }
  rewrite W in C. revert C.
  apply dropOne_more. rewrite E. discriminate.
Qed.

Lemma trimStart_idem (s : string) : trimStart (trimStart s) = trimStart s.
Proof.
  unfold trimStart. rewrite list_ascii_of_string_of_list_ascii.
  rewrite (strip_idem _ whiteSpaceBytes_nonempty). reflexivity.
Qed.

Lemma trim_idem (s : string) : trim (trim s) = trim s.
Proof.
  unfold trim.
  rewrite (trimStart_trimEnd (trimStart s) (trimStart_idem s)).
  apply trimEnd_idem.
Qed.

Lemma truthy_trim (s : string) : truthy (trim s) = true -> truthy s = true.
Proof. destruct s; [intros H; exact H | reflexivity]. Qed.

Lemma whiteSpaceBytes_utf8 :
  whiteSpaceBytes = map utf8 whiteSpace /\
  whiteSpaceBytesRev = map (@rev ascii) (map utf8 whiteSpace).
Proof. split; reflexivity. Qed.

(** White space outside ASCII is stripped like a blank: a no-break space
    (U+00A0), an ideographic space (U+3000), a byte order mark (U+FEFF) and
    a line separator (U+2028); inside the text it stays.  The script takes
    a field or a transcript of such characters only for blank. *)
Example trim_strips_unicode_white_space :
  let nbsp := string_of_list_ascii (utf8 160) in
  let ideographic := string_of_list_ascii (utf8 12288) in
  let bom := string_of_list_ascii (utf8 65279) in
  let ls := string_of_list_ascii (utf8 8232) in
  trim (nbsp ++ bom ++ "hello" ++ nbsp ++ "world" ++ ideographic ++ ls ++ " ")
  = "hello" ++ nbsp ++ "world" /\
  trim nbsp = "" /\
  trim ideographic = "" /\
  trim (bom ++ ls) = "" /\
  processUserInput nbsp initial = initial /\
  onSendClick (set_userInput (ideographic ++ nbsp) initial)
  = set_userInput (ideographic ++ nbsp) initial /\
  notice (exec (processRecordedAudio_resume (transcript 200 ideographic))
            initial)
  = Some ("No speech detected. Please try again.", error).
Proof. vm_compute. repeat split. Qed.

(** ** Lists and the request log *)

Lemma skipn_length_app {A : Type} (l r : list A) :
  skipn (length l) (l ++ r)%list = r.
Proof. induction l as [|a l IH]; simpl; [reflexivity | exact IH]. Qed.

Lemma skipn_length {A : Type} (l : list A) : skipn (length l) l = [].
Proof. induction l as [|a l IH]; simpl; [reflexivity | exact IH]. Qed.

Lemma issued_same (s s' : State) : requests s' = requests s -> issued s s' = [].
Proof. unfold issued. intros ->. apply skipn_length. Qed.

Lemma issued_one (s s' : State) (req : Request) :
  requests s' = (requests s ++ [req])%list -> issued s s' = [req].
Proof. unfold issued. intros ->. apply skipn_length_app. Qed.

Lemma concat_hasData (chunks : list Blob) :
  concat (filter hasData chunks) = concat chunks.
Proof.
  induction chunks as [|c chunks IH]; simpl; [reflexivity|].
  destruct c as [|b c]; simpl; [exact IH|].
  rewrite IH. reflexivity.
Qed.

Lemma filter_hasData_nil (chunks : list Blob) :
  filter hasData chunks = [] <-> forallb (fun c => negb (hasData c)) chunks = true.
Proof.
  induction chunks as [|c chunks IH]; simpl; [tauto|].
  destruct (hasData c); simpl; [split; discriminate | exact IH].
Qed.

(** ** Recording: the chunk buffer *)

Section Chunks.

Variable s : State.

Lemma deliver_audioChunks (chunks : list Blob) :
  audioChunks (deliver chunks s)
  = (audioChunks s ++ filter hasData chunks)%list.
Proof.
  unfold deliver. revert s.
  induction chunks as [|c chunks IH]; intros s0; simpl.
  - symmetry. apply app_nil_r.
  - rewrite IH. unfold ondataavailable. fold (hasData c).
    destruct (hasData c); simpl; [|reflexivity].
    rewrite <- app_assoc. reflexivity.
Qed.

(** Delivering chunks touches the buffer only. *)
Lemma deliver_frame (chunks : list Blob) :
  deliver chunks s = set_audioChunks (audioChunks (deliver chunks s)) s.
Proof.
  unfold deliver. revert s.
  induction chunks as [|c chunks IH]; intros s0; simpl.
  - destruct s0; reflexivity.
  - rewrite IH. unfold ondataavailable.
    destruct (Nat.ltb 0 (blob_size c)); reflexivity.
Qed.

End Chunks.

(** ** Claims *)

(** C1 (the code departs from it).  The stream is not released on every way
    out: when [getUserMedia] has granted a stream and the recorder's
    constructor or its [start()] then throws, the [catch] branch of
    [startRecording] shows the error and resets the button, and leaves the
    stream in [audioStream] with its tracks live.  Only [onstop] stops
    tracks, and this start-up has left no recorder running to fire it. *)
Theorem C1_failed_startup_leaves_stream_live :
  forall (s : State) (stream : StreamId) (e : Err) (setup : Setup),
    setup = ConstructorThrows e \/ setup = StartThrows e ->
    let s' := onMediaSettled (Granted stream setup) s in
    audioStream s' = Some stream /\
    In stream (liveStreams s') /\
    isRecording s' = false /\
    notice s' = Some (startErrorMessage e, error).
Proof.
  intros s stream e setup [-> | ->]; cbn; repeat split; auto.
Qed.

(** The theorem at a constructor that rejects the stream's codec. *)
Lemma C1_failed_startup_witness :
  let s' := onMediaSettled
              (Granted 7 (ConstructorThrows (mkErr "NotSupportedError" "no codec")))
              (startRecording initial) in
  audioStream s' = Some 7 /\
  In 7 (liveStreams s') /\
  isRecording s' = false /\
  notice s' =
    Some (startErrorMessage (mkErr "NotSupportedError" "no codec"), error).
Proof.
  apply (C1_failed_startup_leaves_stream_live
           (startRecording initial) 7 (mkErr "NotSupportedError" "no codec")
           (ConstructorThrows (mkErr "NotSupportedError" "no codec"))).
  left. reflexivity.
Defined.

(** The stream leaked by a failed start-up stays live for good: the next
    recording overwrites [audioStream], and its [onstop] stops the new
    stream only. *)
Example failed_startup_stream_is_never_stopped :
  let e := mkErr "NotSupportedError" "no codec" in
  let s := run [VoiceClick; MediaSettled (Granted 7 (ConstructorThrows e));
                VoiceClick; MediaSettled (Granted 8 SetupOk);
                VoiceClick; DataAvailable [x01%byte]; RecorderStopped;
                TranscribeSettled (transcript 200 "hi"); Advance 10000%N]
               initial in
  liveStreams s = [7] /\ audioStream s = None /\ isRecording s = false.
Proof. vm_compute. repeat split. Qed.

(** [processRecordedAudio] catches whatever its body throws: its
    continuation always returns, with the buffer emptied and the stream
    untouched. *)
Lemma processRecordedAudio_resume_returns (o : FetchOutcome) (s : State) :
  exists s', processRecordedAudio_resume o s = (inr tt, s') /\
             audioStream s' = audioStream s /\
             liveStreams s' = liveStreams s /\
             audioChunks s' = [].
Proof.
  unfold processRecordedAudio_resume, tryFinally, tryCatch, bind, awaitFetch,
    throwUnlessOk, throwIfError, json, jsonOrEmpty, modify, throw, ret.
  destruct o as [e | [ok status [e | [er tx au]]]]; cbn -[trim].
  all: try (destruct ok; cbn -[trim]).
  all: try (destruct (truthyO er); cbn -[trim]).
  all: try (destruct (truthyO tx && truthy (trim (display tx))); cbn -[trim]).
  all: eexists; repeat split.
Qed.

Lemma releaseStream_spec (s : State) :
  audioStream (releaseStream s) = None /\
  forall stream, audioStream s = Some stream ->
                 ~ In stream (liveStreams (releaseStream s)).
Proof.
  unfold releaseStream. destruct (audioStream s) as [a|] eqn:E; cbn.
  - split; [reflexivity|]. intros stream [= <-].
    rewrite filter_In, Nat.eqb_refl. intros [_ F]. discriminate.
  - split; [exact E | discriminate].
Qed.

Lemma releaseStream_requests (s : State) :
  requests (releaseStream s) = requests s.
Proof. unfold releaseStream. destruct (audioStream s); reflexivity. Qed.

(** The way out through [onstop] does release the stream, however the
    transcription settles. *)
Lemma onstop_resume_releases (s : State) (o : FetchOutcome) :
  let s' := onTranscribeSettled o s in
  audioStream s' = None /\
  forall stream, audioStream s = Some stream -> ~ In stream (liveStreams s').
Proof.
  destruct (processRecordedAudio_resume_returns o (settle AwaitTranscribe s))
    as (s1 & E & A & _).
  unfold onTranscribeSettled, exec, onstop_resume, bind. rewrite E. cbn.
  destruct (releaseStream_spec s1) as [N R].
  split; [exact N|]. intros stream H. apply R. rewrite A. exact H.
Qed.

(** C2, as stated, fails: [processUserInput] keeps no record of a pending
    turn.  With the turn for "hi" still awaited, a second call with "hi"
    posts a second request. *)
Lemma C2_second_submit_posts_again :
  let s1 := processUserInput "hi" initial in
  let s2 := processUserInput "hi" s1 in
  pending s1 = [AwaitTurn 0] /\
  requests s1 = [ProcessInput "hi"] /\
  s2 <> s1 /\
  issued s1 s2 <> [] /\
  requests s2 = [ProcessInput "hi"; ProcessInput "hi"] /\
  pending s2 = [AwaitTurn 0; AwaitTurn 1].
Proof.
  cbv zeta. repeat split; try reflexivity.
  - intros H. apply (f_equal requests) in H. vm_compute in H. discriminate.
  - vm_compute. discriminate.
Qed.

(** C2, amended.  Every call of [processUserInput] whose text is not empty
    once trimmed posts exactly one request with the trimmed text and awaits
    it, whatever is pending already; a call whose text trims to nothing
    does nothing. *)
Theorem C2_every_submit_posts_once :
  forall (s : State) (text : string),
    let s' := processUserInput text s in
    issued s s' =
      (if truthy (trim text) then [ProcessInput (trim text)] else []) /\
    pending s' =
      (pending s ++
       if truthy (trim text) then [AwaitTurn (nextNode s)] else [])%list /\
    (truthy (trim text) = false -> s' = s).
Proof.
  intros s text. cbv zeta. unfold processUserInput.
  destruct (truthy (trim text)) eqn:T.
  - rewrite (truthy_trim _ T). cbn.
    repeat split; [apply issued_one; reflexivity | discriminate].
  - rewrite orb_true_r. repeat split.
    + apply issued_same. reflexivity.
    + symmetry. apply app_nil_r.
Qed.

(** A blank submission while the turn for "hi" is pending changes nothing. *)
Lemma C2_blank_submit_witness :
  processUserInput "   " (processUserInput "hi" initial)
  = processUserInput "hi" initial.
Proof.
  apply (C2_every_submit_posts_once (processUserInput "hi" initial) "   ").
  reflexivity.
Defined.

(** One recording seen from the event loop. *)
Example three_chunks_session :
  let chunks := [[x01; x02]; []; [x03]]%byte in
  let s := run ([VoiceClick; MediaSettled (Granted 7 SetupOk)]
                ++ map DataAvailable chunks
                ++ [VoiceClick; DataAvailable [x04%byte]; RecorderStopped])
               initial in
  requests s = [TranscribeAudio [x01; x02; x03; x04]%byte] /\
  pending s = [AwaitTranscribe].
Proof. vm_compute. split; reflexivity. Qed.

(** C4, as stated, fails: the toggle looks at [isRecording] only, and the
    flag is clear both while [getUserMedia] is awaited and while the
    recorded audio is being transcribed.  A toggle in either phase asks for
    the microphone again. *)
Lemma C4_toggle_reacts_while_requesting_and_processing :
  let requesting := run [VoiceClick] initial in
  let processing :=
    run [VoiceClick; MediaSettled (Granted 7 SetupOk); VoiceClick;
         DataAvailable [x01%byte]; RecorderStopped] initial in
  (pending requesting = [AwaitMedia] /\
   isRecording requesting = false /\
   mediaRequests requesting = 1 /\
   step requesting VoiceClick <> requesting /\
   mediaRequests (step requesting VoiceClick) = 2 /\
   pending (step requesting VoiceClick) = [AwaitMedia; AwaitMedia]) /\
  (pending processing = [AwaitTranscribe] /\
   isRecording processing = false /\
   mediaRequests processing = 1 /\
   step processing VoiceClick <> processing /\
   mediaRequests (step processing VoiceClick) = 2 /\
   pending (step processing VoiceClick) = [AwaitTranscribe; AwaitMedia]).
Proof.
  cbv zeta. repeat split; try reflexivity;
    intros H; apply (f_equal mediaRequests) in H; vm_compute in H;
    discriminate.
Qed.

(** C4, amended.  The toggle reacts to the flag [isRecording] alone.  With
    the flag clear (idle, but also while the microphone is being requested
    or the audio processed) it asks for the microphone once more; with the
    flag set it asks for nothing and, a recorder being there, clears the
    flag and stops the recorder.  It never posts a request itself. *)
Theorem C4_toggle_follows_the_flag :
  forall s : State,
    let s' := toggleVoiceRecording s in
    mediaRequests s' =
      (if mediaSupported s && negb (isRecording s)
       then S (mediaRequests s) else mediaRequests s) /\
    pending s' =
      (pending s ++
       if mediaSupported s && negb (isRecording s) then [AwaitMedia]
       else if mediaSupported s && isRecording s
               && match mediaRecorder s with
                  | Some r => match rec_state r with
                              | recording => true
                              | inactive => false
                              end
                  | None => false
                  end
            then [AwaitStop] else [])%list /\
    isRecording s' =
      isRecording s && negb (mediaSupported s && hasRecorder s) /\
    requests s' = requests s.
Proof.
  intros s. cbv zeta. unfold toggleVoiceRecording, hasRecorder.
  destruct (mediaSupported s); cbn.
  - destruct (isRecording s) eqn:R; cbn.
    + unfold stopRecording, recorder_stop. rewrite R.
      destruct (mediaRecorder s) as [[st mime [|]]|]; cbn;
        repeat split; auto using app_nil_r.
    + repeat split; exact R.
  - rewrite app_nil_r, andb_true_r. repeat split.
Qed.

(** C5 (the code departs from it).  The timer that [updateStatusIndicator]
    sets for an [info] notice removes, when it fires, whatever node the
    variable [statusIndicator] then refers to.  The notice shown while the
    microphone is requested is [info]; one second later the stream is
    granted and the [listening] notice replaces it; five seconds after the
    request the first notice's timer fires and takes the [listening]
    notice off the page, with the recording still going on. *)
Theorem C5_stale_timer_removes_listening_notice :
  let s1 := run [VoiceClick; Advance 1000%N; MediaSettled (Granted 7 SetupOk)]
                initial in
  let s2 := step s1 (Advance 5000%N) in
  notice s1 =
    Some ("Recording... Speak now! (Click stop when done)", listening) /\
  timers s1 = [(5000%N, HideInfo)] /\
  notice s2 = None /\
  isRecording s2 = true.
Proof. vm_compute. repeat split. Qed.

(** The same happens to a notice of any type: the callback does not look
    at the type of the node it removes. *)
Lemma hideInfo_removes_any_notice (s : State) (message : string)
    (type : Severity) :
  notice (hideInfo (updateStatusIndicator message type s)) = None.
Proof.
  unfold hideInfo. destruct type; cbn; rewrite Nat.eqb_refl; reflexivity.
Qed.

Example stale_timer_removes_error_notice :
  let s := run [VoiceClick; Advance 1000%N;
                MediaSettled (Denied (mkErr "NotAllowedError" "denied"))]
               initial in
  notice s =
    Some ("Failed to start recording. Microphone permission denied. Please allow microphone access.",
          error) /\
  notice (step s (Advance 5000%N)) = None.
Proof. vm_compute. split; reflexivity. Qed.

(** What [stopRecording], [updateStatusIndicator] and the release of the
    stream leave alone. *)
Lemma stopRecording_frame (s : State) :
  audioChunks (stopRecording s) = audioChunks s /\
  requests (stopRecording s) = requests s /\
  audioStream (stopRecording s) = audioStream s /\
  liveStreams (stopRecording s) = liveStreams s /\
  existsb (Async_eqb AwaitTranscribe) (pending (stopRecording s))
  = existsb (Async_eqb AwaitTranscribe) (pending s).
Proof.
  unfold stopRecording, recorder_stop.
  destruct (mediaRecorder s) as [[st mime [|]]|], (isRecording s);
    cbn; repeat split.
  rewrite existsb_app. cbn. apply orb_false_r.
Qed.

Lemma stopRecording_clears_flag (s : State) :
  hasRecorder s = true -> isRecording (stopRecording s) = false.
Proof.
  unfold stopRecording, recorder_stop, hasRecorder.
  destruct (mediaRecorder s) as [[st mime [|]]|], (isRecording s) eqn:E;
    cbn; auto; discriminate.
Qed.

Lemma updateStatusIndicator_frame (message : string) (type : Severity)
    (s : State) :
  let s' := updateStatusIndicator message type s in
  audioChunks s' = audioChunks s /\
  requests s' = requests s /\
  audioStream s' = audioStream s /\
  liveStreams s' = liveStreams s /\
  pending s' = pending s /\
  isRecording s' = isRecording s /\
  voiceStatus s' = Some (mkStatus (nextNode s) message type).
Proof. destruct type; cbn; repeat split. Qed.

Lemma releaseStream_frame (s : State) :
  pending (releaseStream s) = pending s /\
  voiceStatus (releaseStream s) = voiceStatus s /\
  isRecording (releaseStream s) = isRecording s.
Proof.
  unfold releaseStream. destruct (audioStream s); cbn; repeat split.
Qed.

(** C6.  A recording that is stopped with nothing in the buffer goes back
    to idle: the flag is clear, the stream is stopped and forgotten, the
    notice says that no audio was recorded, and nothing is posted or
    awaited from the transcription endpoint. *)
Theorem C6_empty_recording_posts_nothing :
  forall s : State,
    hasRecorder s = true ->
    audioChunks s = [] ->
    let s' := onstop (stopRecording s) in
    issued s s' = [] /\
    awaited AwaitTranscribe s' = awaited AwaitTranscribe s /\
    (exists node,
       voiceStatus s' =
         Some (mkStatus node "No audio recorded. Please try again." error)) /\
    isRecording s' = false /\
    audioStream s' = None /\
    (forall stream, audioStream s = Some stream ->
                    ~ In stream (liveStreams s')).
Proof.
  intros s H C. cbv zeta.
  destruct (stopRecording_frame s) as (FC & FQ & FS & FL & FA).
  destruct (updateStatusIndicator_frame "No audio recorded. Please try again."
              error (stopRecording s))
    as (UC & UQ & US & UL & UA & UR & UV).
  unfold onstop, processRecordedAudio. rewrite FC, C.
  cbn [length Nat.eqb].
  set (s1 := updateStatusIndicator _ error (stopRecording s)) in *.
  destruct (releaseStream_spec s1) as [N R].
  destruct (releaseStream_frame s1) as (RA & RV & RR).
  repeat split.
  - apply issued_same. rewrite releaseStream_requests. congruence.
  - unfold awaited in *. rewrite RA. congruence.
  - rewrite RV. eexists. exact UV.
  - rewrite RR, UR. apply stopRecording_clears_flag, H.
  - exact N.
  - intros stream E. apply R. congruence.
Qed.

(** The theorem at a recording that has just started. *)
Lemma C6_empty_recording_witness :
  let s := run [VoiceClick; MediaSettled (Granted 7 SetupOk)] initial in
  let s' := onstop (stopRecording s) in
  issued s s' = [] /\
  awaited AwaitTranscribe s' = awaited AwaitTranscribe s /\
  (exists node,
     voiceStatus s' =
       Some (mkStatus node "No audio recorded. Please try again." error)) /\
  isRecording s' = false /\
  audioStream s' = None /\
  (forall stream, audioStream s = Some stream ->
                  ~ In stream (liveStreams s')).
Proof.
  apply (C6_empty_recording_posts_nothing
           (run [VoiceClick; MediaSettled (Granted 7 SetupOk)] initial));
    reflexivity.
Defined.

(** ** Turns *)

Lemma filter_idem {A : Type} (f : A -> bool) (l : list A) :
  filter f (filter f l) = filter f l.
Proof.
  induction l as [|a l IH]; simpl; [reflexivity|].
  destruct (f a) eqn:E; simpl; [rewrite E, IH|]; auto.
Qed.

Lemma In_removePlaceholder (n : ChatNode) (l : list ChatNode) :
  In n (removePlaceholder l) -> In n l.
Proof.
  induction l as [|a l IH]; simpl; [tauto|].
  destruct a; simpl; tauto.
Qed.

Lemma removeNode_twice (node : NodeId) (s : State) :
  removeNode node (removeNode node s) = removeNode node s.
Proof. unfold removeNode. cbn. rewrite filter_idem. reflexivity. Qed.

(** Every failure ends in the [catch] branch, with its detail as the
    message of the error caught. *)
Lemma processUserInput_resume_failure (typingIndicator : NodeId)
    (o : FetchOutcome) (detail : string) (s : State) :
  Failure o detail ->
  processUserInput_resume typingIndicator o s
  = (inr tt, reportFailure typingIndicator detail s).
Proof.
  intros F. unfold reportFailure, shown.
  destruct F as [e | status d msg E T | status j E | status d msg E T
                | status e];
    unfold processUserInput_resume, tryCatch, bind, awaitFetch, throwUnlessOk,
      throwIfError, json, modify, throw, ret; cbn.
  - reflexivity.
  - rewrite E. cbn. rewrite T. cbn. rewrite T. reflexivity.
  - unfold orElse. cbn in E.
    destruct j as [e | d]; cbn in *.
    + reflexivity.
    + destruct (d_error d) as [m|]; cbn in *; [rewrite E|]; reflexivity.
  - rewrite E. cbn. rewrite T. cbn. rewrite T.
    rewrite removeNode_twice. reflexivity.
  - reflexivity.
Qed.

(** C7.  When the reasoning request fails (network error, non-success
    status, populated [error] field, or a body that cannot be read) the
    typing indicator of that turn is removed, one assistant entry
    "Error: <detail>" is appended to the chat, an error notice shows the
    detail, and no request is issued or awaited again. *)
Theorem C7_failed_turn_is_reported_once :
  forall (s : State) (typingIndicator : NodeId) (o : FetchOutcome)
         (detail : string),
    Failure o detail ->
    let s' := onTurnSettled typingIndicator o s in
    chatContainer s' =
      (removePlaceholder
         (filter (fun n => negb (isNode typingIndicator n)) (chatContainer s))
       ++ [Message ai ("Error: " ++ shown detail) (now s)])%list /\
    ~ In (TypingIndicator typingIndicator) (chatContainer s') /\
    notice s' = Some (shown detail, error) /\
    requests s' = requests s /\
    pending s' = removeFirst (AwaitTurn typingIndicator) (pending s).
Proof.
  intros s typingIndicator o detail F. cbv zeta.
  unfold onTurnSettled, exec.
  rewrite (processUserInput_resume_failure typingIndicator o detail _ F).
  cbn. repeat split.
  rewrite in_app_iff. intros [H | [H | []]]; [|discriminate].
  apply In_removePlaceholder, filter_In in H. destruct H as [_ H].
  cbn in H. rewrite Nat.eqb_refl in H. discriminate.
Qed.

(** The theorem at a reply with status 500 and a body that is not JSON. *)
Lemma C7_failed_turn_witness :
  let s := processUserInput "hi" initial in
  let o := Resolved (mkResponse false 500 (inl (mkErr "SyntaxError" "bad"))) in
  let s' := onTurnSettled 0 o s in
  chatContainer s' =
    (removePlaceholder
       (filter (fun n => negb (isNode 0 n)) (chatContainer s))
     ++ [Message ai ("Error: " ++ shown "Server error: 500") (now s)])%list /\
  ~ In (TypingIndicator 0) (chatContainer s') /\
  notice s' = Some (shown "Server error: 500", error) /\
  requests s' = requests s /\
  pending s' = removeFirst (AwaitTurn 0) (pending s).
Proof.
  apply (C7_failed_turn_is_reported_once (processUserInput "hi" initial) 0
           (Resolved (mkResponse false 500 (inl (mkErr "SyntaxError" "bad"))))
           "Server error: 500").
  apply (StatusAlone 500 (inl (mkErr "SyntaxError" "bad"))). reflexivity.
Defined.

Example http_500_scenario :
  let s := run [Typed "hi"; SendClick;
                TurnSettled 0 (Resolved (mkResponse false 500
                                           (inr (mkData None None None))))]
               initial in
  chatContainer s =
    [Message user "hi" 0%N; Message ai "Error: Server error: 500" 0%N] /\
  notice s = Some ("Server error: 500", error) /\
  requests s = [ProcessInput "hi"] /\
  pending s = [].
Proof. vm_compute. repeat split. Qed.

(** ** Empty results and the hand-over of a transcript *)

(** What a successful transcription response [{ text }] does. *)
Lemma processRecordedAudio_resume_transcript (status : nat) (text : string)
    (s : State) :
  processRecordedAudio_resume (transcript status text) s
  = (inr tt,
     set_audioChunks []
       (if truthy (trim text) then
          setTimeout AutoSubmit 1000%N
            (updateStatusIndicator
               "Transcription complete! Click send or record again." info
               (set_userInput (trim text) s))
        else
          updateStatusIndicator "No speech detected. Please try again."
            error s)).
Proof.
  unfold processRecordedAudio_resume, transcript, tryFinally, tryCatch, bind,
    awaitFetch, throwUnlessOk, throwIfError, json, modify, throw, ret.
  cbn -[trim].
  destruct (truthy (trim text)) eqn:T.
  - rewrite (truthy_trim _ T). reflexivity.
  - rewrite andb_false_r. reflexivity.
Qed.

Lemma onTranscribeSettled_transcript (status : nat) (text : string)
    (s : State) :
  onTranscribeSettled (transcript status text) s
  = releaseStream
      (set_audioChunks []
         (if truthy (trim text) then
            setTimeout AutoSubmit 1000%N
              (updateStatusIndicator
                 "Transcription complete! Click send or record again." info
                 (set_userInput (trim text) (settle AwaitTranscribe s)))
          else
            updateStatusIndicator "No speech detected. Please try again."
              error (settle AwaitTranscribe s))).
Proof.
  unfold onTranscribeSettled, exec, onstop_resume, bind.
  rewrite processRecordedAudio_resume_transcript. reflexivity.
Qed.

Lemma releaseStream_userInput (s : State) :
  userInput (releaseStream s) = userInput s /\
  timers (releaseStream s) = timers s /\
  now (releaseStream s) = now s.
Proof.
  unfold releaseStream. destruct (audioStream s); cbn; repeat split.
Qed.

(** The timer's callback posts the field's trimmed value, if any. *)
Lemma autoSubmit_issued (s : State) :
  issued s (autoSubmit s) =
    (if truthy (trim (userInput s)) then [ProcessInput (trim (userInput s))]
     else []) /\
  (truthy (trim (userInput s)) = false -> autoSubmit s = s).
Proof.
  unfold autoSubmit.
  destruct (truthy (trim (userInput s))) eqn:T.
  - split; [|discriminate].
    apply issued_one. unfold processUserInput.
    rewrite trim_idem, T. reflexivity.
  - split; [apply issued_same|]; reflexivity.
Qed.

(** C8, as stated, fails: the notice for a recording without chunks and the
    notice for a transcript without speech are of type [error], the type of
    the notice shown when the transcription itself fails. *)
Lemma C8_empty_results_are_shown_as_errors :
  let recording := run [VoiceClick; MediaSettled (Granted 7 SetupOk)] initial in
  let sent := run [DataAvailable [x01%byte]; VoiceClick; RecorderStopped]
                  recording in
  notice (run [VoiceClick; RecorderStopped] recording)
    = Some ("No audio recorded. Please try again.", error) /\
  notice (step sent (TranscribeSettled (transcript 200 "   ")))
    = Some ("No speech detected. Please try again.", error) /\
  notice (step sent (TranscribeSettled
                       (Rejected (mkErr "TypeError" "Failed to fetch"))))
    = Some ("Error: Failed to fetch", error).
Proof. vm_compute. repeat split. Qed.

(** C8, amended.  Each of the three conditions has a notice text of its
    own: a recording without chunks and a transcript that is empty or
    white space are announced with type [error]; a reply without audio is
    announced with type [info], and a reply with audio leaves the notice
    as it was. *)
Theorem C8_empty_results_have_their_own_notices :
  forall (s : State) (status : nat) (text : string)
         (typingIndicator : NodeId),
    notice (onstop (set_audioChunks [] s))
      = Some ("No audio recorded. Please try again.", error) /\
    notice (onTranscribeSettled (transcript status text) s)
      = Some (if truthy (trim text)
              then ("Transcription complete! Click send or record again.",
                    info)
              else ("No speech detected. Please try again.", error)) /\
    (forall audio : option string,
       notice (onTurnSettled typingIndicator (reply status text audio) s)
       = if truthyO audio then notice s
         else Some ("Response received (no audio)", info)).
Proof.
  intros s status text typingIndicator. split; [|split].
  - unfold onstop, processRecordedAudio, notice. cbn.
    destruct (releaseStream_frame
                (updateStatusIndicator "No audio recorded. Please try again."
                   error (set_audioChunks [] s))) as (_ & V & _).
    cbn in V. rewrite V. reflexivity.
  - rewrite onTranscribeSettled_transcript. unfold notice.
    match goal with
    | |- context [releaseStream ?x] =>
        destruct (releaseStream_frame x) as (_ & V & _); rewrite V
    end.
    destruct (truthy (trim text)); reflexivity.
  - intros audio. unfold onTurnSettled, exec, reply, processUserInput_resume,
      tryCatch, bind, awaitFetch, throwUnlessOk, throwIfError, json, modify,
      throw, ret.
    cbn. destruct (truthyO audio); reflexivity.
Qed.

(** A transcript reaches the field trimmed, and the timer's callback, run
    on that state, posts it as the turn's input. *)
Lemma transcript_round_trip (s : State) (status : nat) (text : string) :
  truthy (trim text) = true ->
  let s1 := onTranscribeSettled (transcript status text) s in
  userInput s1 = trim text /\
  In ((now s + 1000)%N, AutoSubmit) (timers s1) /\
  issued s1 (autoSubmit s1) = [ProcessInput (trim text)] /\
  pending (autoSubmit s1) = (pending s1 ++ [AwaitTurn (nextNode s1)])%list /\
  userInput (autoSubmit s1) = "".
Proof.
  intros T. cbv zeta.
  rewrite onTranscribeSettled_transcript, T.
  match goal with
  | |- context [releaseStream ?x] =>
      set (s0 := x);
      destruct (releaseStream_userInput s0) as (U & Tm & _)
  end.
  assert (U1 : userInput (releaseStream s0) = trim text) by (rewrite U; reflexivity).
  split; [exact U1|]. split.
  { rewrite Tm. cbn. rewrite in_app_iff. right. left. reflexivity. }
  destruct (autoSubmit_issued (releaseStream s0)) as [I _].
  rewrite U1, trim_idem, T in I. split; [exact I|].
  unfold autoSubmit, processUserInput.
  rewrite U1, !trim_idem, T. split; reflexivity.
Qed.

(** C9.  After the transcription response [{ text: "hello" }] the field
    holds "hello", the submission is scheduled one second later, and, run
    on that state, it posts a turn whose input is "hello". *)
Theorem C9_hello_round_trip :
  forall (s : State) (status : nat),
    let s1 := onTranscribeSettled (transcript status "hello") s in
    userInput s1 = "hello" /\
    In ((now s + 1000)%N, AutoSubmit) (timers s1) /\
    issued s1 (autoSubmit s1) = [ProcessInput "hello"] /\
    pending (autoSubmit s1) = (pending s1 ++ [AwaitTurn (nextNode s1)])%list /\
    userInput (autoSubmit s1) = "".
Proof.
  intros s status.
  apply (transcript_round_trip s status "hello"). reflexivity.
Qed.

(** C10.  After a transcription with speech in it, the submission is
    scheduled one second later; when it runs it reads the field again and
    posts the field's trimmed value of that moment, and if that is empty it
    leaves everything as it is: no chat entry, no request, no turn. *)
Theorem C10_auto_submit_rechecks_the_field :
  forall (s : State) (status : nat) (text edited : string),
    truthy (trim text) = true ->
    let s1 := onTranscribeSettled (transcript status text) s in
    let s2 := step s1 (Typed edited) in
    In ((now s + 1000)%N, AutoSubmit) (timers s1) /\
    issued s2 (autoSubmit s2) =
      (if truthy (trim edited) then [ProcessInput (trim edited)] else []) /\
    (truthy (trim edited) = false -> autoSubmit s2 = s2).
Proof.
  intros s status text edited T. cbv zeta. split.
  - apply (transcript_round_trip s status text T).
  - apply (autoSubmit_issued (step _ (Typed edited))).
Qed.

(** The theorem at a field emptied during the delay. *)
Lemma C10_auto_submit_witness :
  let s1 := onTranscribeSettled (transcript 200 "hello") initial in
  let s2 := step s1 (Typed "") in
  In ((now initial + 1000)%N, AutoSubmit) (timers s1) /\
  issued s2 (autoSubmit s2) =
    (if truthy (trim "") then [ProcessInput (trim "")] else []) /\
  (truthy (trim "") = false -> autoSubmit s2 = s2).
Proof.
  apply (C10_auto_submit_rechecks_the_field initial 200 "hello" "").
  reflexivity.
Defined.

(** The two outcomes of the delay, seen from the event loop. *)
Example auto_submit_after_the_delay :
  let heard :=
    run [VoiceClick; MediaSettled (Granted 7 SetupOk); VoiceClick;
         DataAvailable [x01%byte]; RecorderStopped;
         TranscribeSettled (transcript 200 "what is the weather")] initial in
  userInput heard = "what is the weather" /\
  requests (run [Advance 999%N] heard) = [TranscribeAudio [x01%byte]] /\
  requests (run [Advance 1000%N] heard)
    = [TranscribeAudio [x01%byte]; ProcessInput "what is the weather"] /\
  chatContainer (run [Advance 1000%N] heard)
    = [Message user "what is the weather" 1000%N; TypingIndicator 5] /\
  requests (run [Typed ""; Advance 1000%N] heard)
    = [TranscribeAudio [x01%byte]] /\
  chatContainer (run [Typed ""; Advance 1000%N] heard) = [Placeholder].
Proof. vm_compute. repeat split. Qed.

(** * The rest of the script *)

(** ** How the awaited functions end *)

(** A settled request is a failure or a success, never both shapes. *)
Lemma outcome_cases (o : FetchOutcome) :
  (exists detail, Failure o detail) \/ (exists data, succeeded o data).
Proof.
  destruct o as [e | [[|] status [e | d]]].
  - left. eexists. constructor.
  - left. eexists. constructor.
  - destruct (d_error d) as [msg|] eqn:E.
    + destruct (truthy msg) eqn:T.
      * left. exists msg. apply ErrorField; assumption.
      * right. exists d, status. split; [reflexivity|].
        rewrite E. exact T.
    + right. exists d, status. split; [reflexivity|]. rewrite E. reflexivity.
  - left. eexists. apply StatusAlone. reflexivity.
  - destruct (d_error d) as [msg|] eqn:E.
    + destruct (truthy msg) eqn:T.
      * left. exists msg. apply StatusWithDetail; assumption.
      * left. eexists. apply StatusAlone. cbn. rewrite E. exact T.
    + left. eexists. apply StatusAlone. cbn. rewrite E. reflexivity.
Qed.

Lemma failure_is_no_success (o : FetchOutcome) (detail : string)
    (data : Data) :
  Failure o detail -> succeeded o data -> False.
Proof.
  intros F (status & -> & E).
  inversion F as [| | | st d msg D T |]; subst.
  rewrite D in E. cbn in E. congruence.
Qed.

Lemma processUserInput_resume_success (typingIndicator : NodeId)
    (o : FetchOutcome) (data : Data) (s : State) :
  succeeded o data ->
  processUserInput_resume typingIndicator o s
  = (inr tt, renderReply typingIndicator data s).
Proof.
  intros (status & -> & E).
  unfold processUserInput_resume, renderReply, tryCatch, bind, awaitFetch,
    throwUnlessOk, throwIfError, json, modify, throw, ret.
  cbn. rewrite E. cbn.
  destruct (truthyO (d_audio data)); reflexivity.
Qed.

Lemma processRecordedAudio_resume_failure (o : FetchOutcome)
    (detail : string) (s : State) :
  Failure o detail ->
  processRecordedAudio_resume o s
  = (inr tt,
     set_audioChunks []
       (updateStatusIndicator ("Error: " ++ detail) error s)).
Proof.
  intros F.
  destruct F as [e | status d msg E T | status j E | status d msg E T
                | status e];
    unfold processRecordedAudio_resume, tryFinally, tryCatch, bind,
      awaitFetch, throwUnlessOk, throwIfError, json, modify, throw, ret; cbn.
  - reflexivity.
  - rewrite E. cbn. rewrite T. reflexivity.
  - unfold orElse. cbn in E.
    destruct j as [e | d]; cbn in *.
    + reflexivity.
    + destruct (d_error d) as [m|]; cbn in *; [rewrite E|]; reflexivity.
  - rewrite E. cbn. rewrite T. reflexivity.
  - reflexivity.
Qed.

Lemma processRecordedAudio_resume_success (o : FetchOutcome) (data : Data)
    (s : State) :
  succeeded o data ->
  processRecordedAudio_resume o s
  = (inr tt, set_audioChunks [] (hearTranscript data s)).
Proof.
  intros (status & -> & E).
  unfold processRecordedAudio_resume, hearTranscript, tryFinally, tryCatch,
    bind, awaitFetch, throwUnlessOk, throwIfError, json, modify, throw, ret.
  cbn -[trim]. rewrite E. cbn -[trim].
  destruct (truthyO (d_text data) && truthy (trim (display (d_text data))));
    reflexivity.
Qed.

(** The two ways a turn ends. *)
Lemma onTurnSettled_cases (typingIndicator : NodeId) (o : FetchOutcome)
    (s : State) :
  (exists detail,
     Failure o detail /\
     onTurnSettled typingIndicator o s
     = reportFailure typingIndicator detail
         (settle (AwaitTurn typingIndicator) s)) \/
  (exists data,
     succeeded o data /\
     onTurnSettled typingIndicator o s
     = renderReply typingIndicator data
         (settle (AwaitTurn typingIndicator) s)).
Proof.
  unfold onTurnSettled, exec.
  destruct (outcome_cases o) as [[detail F] | [data S]]; [left | right].
  - exists detail. split; [exact F|].
    rewrite (processUserInput_resume_failure _ _ _ _ F). reflexivity.
  - exists data. split; [exact S|].
    rewrite (processUserInput_resume_success _ _ _ _ S). reflexivity.
Qed.

(** The two ways a transcription ends. *)
Lemma onTranscribeSettled_cases (o : FetchOutcome) (s : State) :
  (exists detail,
     Failure o detail /\
     onTranscribeSettled o s
     = releaseStream
         (set_audioChunks []
            (updateStatusIndicator ("Error: " ++ detail) error
               (settle AwaitTranscribe s)))) \/
  (exists data,
     succeeded o data /\
     onTranscribeSettled o s
     = releaseStream
         (set_audioChunks []
            (hearTranscript data (settle AwaitTranscribe s)))).
Proof.
  unfold onTranscribeSettled, exec, onstop_resume, bind.
  destruct (outcome_cases o) as [[detail F] | [data S]]; [left | right].
  - exists detail. split; [exact F|].
    rewrite (processRecordedAudio_resume_failure _ _ _ F). reflexivity.
  - exists data. split; [exact S|].
    rewrite (processRecordedAudio_resume_success _ _ _ S). reflexivity.
Qed.

(** ** Invariants of the event loop *)

Section Invariant.

Variable P : State -> Prop.

Hypothesis P_toggle : forall s, P s -> P (toggleVoiceRecording s).
Hypothesis P_send : forall s, P s -> P (onSendClick s).
Hypothesis P_typed : forall s value, P s -> P (set_userInput value s).
Hypothesis P_media :
  forall s o, awaited AwaitMedia s = true -> P s -> P (onMediaSettled o s).
Hypothesis P_data : forall s data, P s -> P (ondataavailable data s).
Hypothesis P_error : forall s, P s -> P (onerror s).
Hypothesis P_stopped : forall s, P s -> P (onRecorderStopped s).
Hypothesis P_transcribed :
  forall s o, P s -> P (onTranscribeSettled o s).
Hypothesis P_turn :
  forall s node o, P s -> P (onTurnSettled node o s).
Hypothesis P_play : forall s, P s -> P (onPlayRejected (settle AwaitPlay s)).
Hypothesis P_hide : forall s, P s -> P (hideInfo s).
Hypothesis P_now : forall s t, P s -> P (set_now t s).
Hypothesis P_timers : forall s l, P s -> P (set_timers l s).

Lemma runTimer_invariant (s : State) (x : N * TimerCb) :
  P s -> P (runTimer s x).
Proof.
  intros H. unfold runTimer. destruct (snd x); [auto|].
  (* the callback of the submission timer is the send button's handler *)
  change (P (onSendClick (set_now (N.max (now s) (fst x)) s))). auto.
Qed.

Lemma advance_invariant (t : N) (s : State) : P s -> P (advance t s).
Proof.
  intros H. unfold advance. apply P_now.
  generalize (byDueTime (filter (fun x => N.leb (fst x) t) (timers s))).
  generalize (P_timers s
                (filter (fun x => negb (N.leb (fst x) t)) (timers s)) H).
  generalize (set_timers
                (filter (fun x => negb (N.leb (fst x) t)) (timers s)) s).
  intros s0 H0 l. revert s0 H0.
  induction l as [|x l IH]; intros s0 H0; simpl; [exact H0|].
  apply IH, runTimer_invariant, H0.
Qed.

Lemma step_invariant (s : State) (ev : Event) : P s -> P (step s ev).
Proof.
  intros H. destruct ev; simpl.
  - auto.
  - destruct (negb inputFocused && negb onControl); auto.
  - auto.
  - unfold onKeyPress. destruct (String.eqb key "Enter" && negb shiftKey); auto.
  - auto.
  - destruct (awaited AwaitMedia s) eqn:E; auto.
  - destruct (hasRecorder s); auto.
  - destruct (hasRecorder s); auto.
  - destruct (awaited AwaitStop s); auto.
  - destruct (awaited AwaitTranscribe s); auto.
  - destruct (awaited (AwaitTurn typingIndicator) s); auto.
  - destruct (awaited AwaitPlay s); auto.
  - apply advance_invariant, H.
Qed.

End Invariant.

Lemma run_invariant (P : State -> Prop) :
  (forall s ev, P s -> P (step s ev)) ->
  forall evs s, P s -> P (run evs s).
Proof.
  intros Step evs. unfold run.
  induction evs as [|ev evs IH]; intros s H; simpl; [exact H|].
  apply IH, Step, H.
Qed.

(** *** The notice and the variable that refers to it *)

Lemma Linked_updateStatusIndicator (message : string) (type : Severity)
    (s : State) :
  Linked (updateStatusIndicator message type s).
Proof. destruct type; reflexivity. Qed.

Lemma Linked_stopRecording (s : State) : Linked s -> Linked (stopRecording s).
Proof.
  intros H. unfold stopRecording.
  destruct (mediaRecorder s), (isRecording s); try exact H.
  apply Linked_updateStatusIndicator.
Qed.

Lemma Linked_releaseStream (s : State) : Linked s -> Linked (releaseStream s).
Proof. unfold releaseStream. destruct (audioStream s); auto. Qed.

Lemma Linked_processUserInput (text : string) (s : State) :
  Linked s -> Linked (processUserInput text s).
Proof.
  intros H. unfold processUserInput.
  destruct (negb (truthy text) || negb (truthy (trim text)));
    [exact H | exact I].
Qed.

Lemma Linked_hearTranscript (data : Data) (s : State) :
  Linked (hearTranscript data s).
Proof.
  unfold hearTranscript.
  destruct (truthyO (d_text data) && truthy (trim (display (d_text data))));
    reflexivity.
Qed.

Lemma Linked_renderReply (node : NodeId) (data : Data) (s : State) :
  Linked s -> Linked (renderReply node data s).
Proof.
  intros H. unfold renderReply.
  destruct (truthyO (d_audio data)); [exact H | reflexivity].
Qed.

(** Under the invariant the timer's callback removes whatever notice is on
    the page. *)
Lemma hideInfo_clears (s : State) :
  Linked s -> voiceStatus (hideInfo s) = None.
Proof.
  unfold hideInfo, Linked.
  destruct (voiceStatus s) as [st|] eqn:W.
  - intros ->. rewrite Nat.eqb_refl. reflexivity.
  - intros _. destruct (statusIndicator s); exact W.
Qed.

Lemma Linked_hideInfo (s : State) : Linked s -> Linked (hideInfo s).
Proof.
  intros H. unfold Linked at 1. rewrite (hideInfo_clears s H). exact I.
Qed.

Lemma Linked_step (s : State) (ev : Event) : Linked s -> Linked (step s ev).
Proof.
  revert s ev. apply (step_invariant Linked).
  - intros s H. unfold toggleVoiceRecording.
    destruct (mediaSupported s); [|exact H].
    destruct (isRecording s); [apply Linked_stopRecording, H|].
    unfold startRecording. reflexivity.
  - intros s H. unfold onSendClick.
    destruct (truthy (trim (userInput s))); [|exact H].
    apply (Linked_processUserInput _ s H).
  - intros s value H. exact H.
  - intros s [stream [|e|e]|e] _ H; reflexivity.
  - intros s data H. unfold ondataavailable.
    destruct (Nat.ltb 0 (blob_size data)); exact H.
  - intros s H. apply Linked_stopRecording, Linked_updateStatusIndicator.
  - intros s H. unfold onRecorderStopped, onstop, processRecordedAudio.
    destruct (Nat.eqb _ 0); [|reflexivity].
    apply Linked_releaseStream, Linked_updateStatusIndicator.
  - intros s o H.
    destruct (onTranscribeSettled_cases o s) as [(d & _ & ->) | (d & _ & ->)];
      apply Linked_releaseStream.
    + apply (Linked_updateStatusIndicator _ error).
    + apply (Linked_hearTranscript d).
  - intros s node o H.
    destruct (onTurnSettled_cases node o s) as [(d & _ & ->) | (d & _ & ->)].
    + apply Linked_updateStatusIndicator.
    + apply Linked_renderReply, H.
  - intros s H. apply Linked_updateStatusIndicator.
  - exact Linked_hideInfo.
  - intros s t H. exact H.
  - intros s l H. exact H.
Qed.

(** X1.  After any sequence of events the variable [statusIndicator] refers to
    the notice on the page, if there is one: the page never shows a notice
    that the script has lost track of. *)
Theorem notice_is_the_node_last_created :
  forall (evs : list Event) (st : StatusNode),
    voiceStatus (run evs initial) = Some st ->
    statusIndicator (run evs initial) = Some (st_node st).
Proof.
  intros evs st E.
  assert (L : Linked (run evs initial))
    by (apply (run_invariant Linked Linked_step); exact I).
  unfold Linked in L. rewrite E in L. exact L.
Qed.

(** *** Expiry of an [info] notice *)

Lemma In_insertTimer (x y : N * TimerCb) (l : list (N * TimerCb)) :
  In y (insertTimer x l) <-> y = x \/ In y l.
Proof.
  induction l as [|z l IH]; simpl; [intuition|].
  destruct (N.ltb (fst x) (fst z)); simpl; [intuition|].
  rewrite IH. intuition.
Qed.

Lemma In_byDueTime (y : N * TimerCb) (l : list (N * TimerCb)) :
  In y (byDueTime l) <-> In y l.
Proof.
  unfold byDueTime.
  assert (G : forall acc,
            In y (fold_left (fun acc x => insertTimer x acc) l acc)
            <-> In y l \/ In y acc).
  { induction l as [|x l IH]; intros acc; simpl; [intuition|].
    rewrite IH, In_insertTimer. intuition. }
  rewrite G. simpl. intuition.
Qed.

Lemma runTimer_Linked (s : State) (x : N * TimerCb) :
  Linked s -> Linked (runTimer s x).
Proof.
  intros H. unfold runTimer. destruct (snd x).
  - apply Linked_hideInfo. exact H.
  - apply (Linked_step (set_now _ s) SendClick). exact H.
Qed.

Lemma processUserInput_voiceStatus (text : string) (s : State) :
  voiceStatus s = None -> voiceStatus (processUserInput text s) = None.
Proof.
  intros E. unfold processUserInput.
  destruct (negb (truthy text) || negb (truthy (trim text)));
    [exact E | reflexivity].
Qed.

(** Neither callback puts a notice on the page. *)
Lemma runTimer_keeps_page_clear (s : State) (x : N * TimerCb) :
  Linked s -> voiceStatus s = None -> voiceStatus (runTimer s x) = None.
Proof.
  intros L E. unfold runTimer. destruct (snd x).
  - apply hideInfo_clears. exact L.
  - unfold autoSubmit.
    destruct (truthy (trim (userInput _))); [|exact E].
    apply (processUserInput_voiceStatus _ (set_now _ s)). exact E.
Qed.

Lemma timers_clear_the_page (l : list (N * TimerCb)) :
  forall s : State,
    Linked s ->
    (exists due, In (due, HideInfo) l) \/ voiceStatus s = None ->
    voiceStatus (fold_left runTimer l s) = None.
Proof.
  induction l as [|x l IH]; intros s L H; simpl.
  - destruct H as [[due []] | H]; exact H.
  - apply IH; [apply runTimer_Linked, L|].
    destruct H as [[due [-> | H]] | H].
    + right. unfold runTimer. cbn. apply hideInfo_clears. exact L.
    + left. exists due. exact H.
    + right. apply runTimer_keeps_page_clear; assumption.
Qed.

(** X2.  An [info] notice is off the page once five seconds have passed since it
    was shown, whatever other timers were set before it: its own timer
    removes it if nothing else has. *)
Theorem info_notice_is_gone_after_five_seconds :
  forall (s : State) (message : string) (t : N),
    (now s + 5000 <= t)%N ->
    notice (advance t (updateStatusIndicator message info s)) = None.
Proof.
  intros s message t Ht. unfold advance. cbv zeta.
  set (s1 := updateStatusIndicator message info s).
  match goal with
  | |- notice (set_now _ ?x) = None => assert (E : voiceStatus x = None)
  end.
  { apply timers_clear_the_page; [reflexivity|].
    left. exists (now s + 5000)%N.
    apply In_byDueTime, filter_In. split.
    - unfold s1. cbn. apply in_or_app. right. left. reflexivity.
    - cbn [fst]. apply N.leb_le. exact Ht. }
  unfold notice. cbn [voiceStatus set_now]. rewrite E. reflexivity.
Qed.

(** The theorem at the notice shown while the microphone is requested. *)
Lemma info_notice_expiry_witness :
  notice (advance 5000%N
            (updateStatusIndicator "Requesting microphone access..." info
               initial)) = None.
Proof.
  apply (info_notice_is_gone_after_five_seconds initial
           "Requesting microphone access..." 5000%N).
  vm_compute. discriminate.
Defined.

(** *** The recording flag, the button and the recorder *)

Lemma FlagConsistent_stopRecording (s : State) :
  FlagConsistent s -> FlagConsistent (stopRecording s).
Proof.
  intros H. unfold stopRecording.
  destruct (mediaRecorder s) as [r|] eqn:R; [|exact H].
  destruct (isRecording s) eqn:F; [|exact H].
  split; [reflexivity | discriminate].
Qed.

Lemma FlagConsistent_releaseStream (s : State) :
  FlagConsistent s -> FlagConsistent (releaseStream s).
Proof. unfold releaseStream. destruct (audioStream s); auto. Qed.

Lemma FlagConsistent_processUserInput (text : string) (s : State) :
  FlagConsistent s -> FlagConsistent (processUserInput text s).
Proof.
  intros H. unfold processUserInput.
  destruct (negb (truthy text) || negb (truthy (trim text))); exact H.
Qed.

Lemma FlagConsistent_step (s : State) (ev : Event) :
  FlagConsistent s -> FlagConsistent (step s ev).
Proof.
  revert s ev. apply (step_invariant FlagConsistent).
  - intros s H. unfold toggleVoiceRecording.
    destruct (mediaSupported s); [|exact H].
    destruct (isRecording s) eqn:F.
    + apply FlagConsistent_stopRecording, H.
    + unfold startRecording. exact H.
  - intros s H. unfold onSendClick.
    destruct (truthy (trim (userInput s))); [|exact H].
    apply (FlagConsistent_processUserInput _ s H).
  - intros s value H. exact H.
  - intros s [stream [|e|e]|e] _ H;
      (split; [reflexivity|]);
      [ intros _; reflexivity
      | intros F; discriminate F .. ].
  - intros s data H. unfold ondataavailable.
    destruct (Nat.ltb 0 (blob_size data)); exact H.
  - intros s H. apply FlagConsistent_stopRecording. exact H.
  - intros s H. unfold onRecorderStopped, onstop, processRecordedAudio.
    destruct (Nat.eqb _ 0); [|exact H].
    apply FlagConsistent_releaseStream. exact H.
  - intros s o H.
    destruct (onTranscribeSettled_cases o s) as [(d & _ & ->) | (d & _ & ->)];
      apply FlagConsistent_releaseStream; [exact H|].
    unfold hearTranscript.
    destruct (truthyO (d_text d) && truthy (trim (display (d_text d))));
      exact H.
  - intros s node o H.
    destruct (onTurnSettled_cases node o s) as [(d & _ & ->) | (d & _ & ->)];
      [exact H|].
    unfold renderReply. destruct (truthyO (d_audio d)); exact H.
  - intros s H. exact H.
  - intros s H. unfold hideInfo.
    destruct (statusIndicator s), (voiceStatus s) as [st|]; try exact H.
    destruct (Nat.eqb _ _); exact H.
  - intros s t H. exact H.
  - intros s l H. exact H.
Qed.

(** X3.  After any sequence of events the voice button shows the stop icon
    exactly when [isRecording] is set, and [isRecording] is set only when
    [mediaRecorder] holds a recorder. *)
Theorem button_and_flag_agree :
  forall evs : list Event,
    let s := run evs initial in
    voiceBtn s = isRecording s /\
    (isRecording s = true -> hasRecorder s = true).
Proof.
  intros evs. apply (run_invariant FlagConsistent FlagConsistent_step).
  split; [reflexivity | discriminate].
Qed.

(** The theorem during a recording. *)
Lemma button_and_flag_witness :
  hasRecorder (run [VoiceClick; MediaSettled (Granted 7 SetupOk)] initial)
  = true.
Proof.
  apply (button_and_flag_agree [VoiceClick; MediaSettled (Granted 7 SetupOk)]).
  reflexivity.
Defined.

(** *** The stream the script holds *)

Lemma HeldStreamLive_frame (s s' : State) :
  audioStream s' = audioStream s -> liveStreams s' = liveStreams s ->
  HeldStreamLive s -> HeldStreamLive s'.
Proof. unfold HeldStreamLive. intros -> ->. trivial. Qed.

Lemma HeldStreamLive_releaseStream (s : State) :
  HeldStreamLive (releaseStream s).
Proof.
  unfold HeldStreamLive.
  destruct (releaseStream_spec s) as [-> _]. exact I.
Qed.

Lemma HeldStreamLive_stopRecording (s : State) :
  HeldStreamLive s -> HeldStreamLive (stopRecording s).
Proof.
  destruct (stopRecording_frame s) as (_ & _ & A & L & _).
  apply HeldStreamLive_frame; assumption.
Qed.

Lemma HeldStreamLive_processUserInput (text : string) (s : State) :
  HeldStreamLive s -> HeldStreamLive (processUserInput text s).
Proof.
  intros H. unfold processUserInput.
  destruct (negb (truthy text) || negb (truthy (trim text))); exact H.
Qed.

Lemma HeldStreamLive_step (s : State) (ev : Event) :
  HeldStreamLive s -> HeldStreamLive (step s ev).
Proof.
  revert s ev. apply (step_invariant HeldStreamLive).
  - intros s H. unfold toggleVoiceRecording.
    destruct (mediaSupported s); [|exact H].
    destruct (isRecording s).
    + apply HeldStreamLive_stopRecording, H.
    + exact H.
  - intros s H. unfold onSendClick.
    destruct (truthy (trim (userInput s))); [|exact H].
    apply (HeldStreamLive_processUserInput _ s H).
  - intros s value H. exact H.
  - intros s [stream [|e|e]|e] _ H; [left; reflexivity .. | exact H].
  - intros s data H. unfold ondataavailable.
    destruct (Nat.ltb 0 (blob_size data)); exact H.
  - intros s H. apply HeldStreamLive_stopRecording. exact H.
  - intros s H. unfold onRecorderStopped, onstop, processRecordedAudio.
    destruct (Nat.eqb _ 0); [|exact H].
    apply HeldStreamLive_releaseStream.
  - intros s o H.
    destruct (onTranscribeSettled_cases o s) as [(d & _ & ->) | (d & _ & ->)];
      apply HeldStreamLive_releaseStream.
  - intros s node o H.
    destruct (onTurnSettled_cases node o s) as [(d & _ & ->) | (d & _ & ->)];
      [exact H|].
    unfold renderReply. destruct (truthyO (d_audio d)); exact H.
  - intros s H. exact H.
  - intros s H. unfold hideInfo.
    destruct (statusIndicator s), (voiceStatus s) as [st|]; try exact H.
    destruct (Nat.eqb _ _); exact H.
  - intros s t H. exact H.
  - intros s l H. exact H.
Qed.

(** X4.  After any sequence of events, the stream in [audioStream] is one whose
    tracks have not been stopped: the script never keeps a handle to a
    stream it has stopped. *)
Theorem held_stream_is_live :
  forall (evs : list Event) (stream : StreamId),
    audioStream (run evs initial) = Some stream ->
    In stream (liveStreams (run evs initial)).
Proof.
  intros evs stream E.
  assert (H : HeldStreamLive (run evs initial))
    by (apply (run_invariant HeldStreamLive HeldStreamLive_step); exact I).
  unfold HeldStreamLive in H. rewrite E in H. exact H.
Qed.

(** The theorem during a recording. *)
Lemma held_stream_is_live_witness :
  In 7 (liveStreams (run [VoiceClick; MediaSettled (Granted 7 SetupOk)]
                         initial)).
Proof.
  apply (held_stream_is_live [VoiceClick; MediaSettled (Granted 7 SetupOk)] 7).
  reflexivity.
Defined.

(** The theorem at the one notice of the first toggle. *)
Lemma notice_is_the_node_last_created_witness :
  statusIndicator (run [VoiceClick] initial) = Some 0.
Proof.
  apply (notice_is_the_node_last_created [VoiceClick]
           (mkStatus 0 "Requesting microphone access..." info)).
  reflexivity.
Defined.

(** *** Stopping, and the end of [onstop] *)

Lemma stopRecording_noop (s : State) :
  isRecording s = false \/ mediaRecorder s = None -> stopRecording s = s.
Proof.
  unfold stopRecording. intros [F | R].
  - rewrite F. destruct (mediaRecorder s); reflexivity.
  - rewrite R. reflexivity.
Qed.

(** X5.  A second [stopRecording] does nothing: the flag is clear after the
    first, so the recorder is stopped, and its [stop] event owed, once. *)
Theorem stopRecording_idempotent :
  forall s : State, stopRecording (stopRecording s) = stopRecording s.
Proof.
  intros s. destruct (hasRecorder s) eqn:R.
  - apply stopRecording_noop. left.
    apply stopRecording_clears_flag, R.
  - assert (E : stopRecording s = s).
    { apply stopRecording_noop. right. unfold hasRecorder in R.
      destruct (mediaRecorder s); [discriminate | reflexivity]. }
    rewrite E. exact E.
Qed.

(** X6.  When the recorder reports an error during a recording, the error
    notice is replaced at once by "Processing audio...", because [onerror]
    goes on to call [stopRecording]; the error text stays on the page only
    when nothing was being recorded. *)
Theorem onerror_notice :
  forall s : State,
    notice (onerror s) =
      if hasRecorder s && isRecording s
      then Some ("Processing audio...", info)
      else Some ("Recording error. Please try again.", error).
Proof.
  intros s. unfold onerror, stopRecording, hasRecorder.
  change (mediaRecorder (updateStatusIndicator _ error s))
    with (mediaRecorder s).
  change (isRecording (updateStatusIndicator _ error s))
    with (isRecording s).
  destruct (mediaRecorder s), (isRecording s); reflexivity.
Qed.

(** X7.  The end of [onstop] stops the stream that [audioStream] holds at that
    moment, not the stream of the recorder that stopped.  If a newer
    recording is going on when a transcription settles, it is the newer
    recording's stream that is stopped and forgotten, while [isRecording]
    stays set. *)
Theorem settled_transcription_stops_the_current_stream :
  forall (s : State) (o : FetchOutcome) (stream : StreamId),
    isRecording s = true ->
    audioStream s = Some stream ->
    let s' := onTranscribeSettled o s in
    isRecording s' = true /\
    audioStream s' = None /\
    ~ In stream (liveStreams s').
Proof.
  intros s o stream F A. cbv zeta.
  destruct (onstop_resume_releases s o) as [N R].
  split; [|split; [exact N | apply R, A]].
  destruct (onTranscribeSettled_cases o s) as [(d & _ & ->) | (d & _ & ->)].
  - match goal with
    | |- isRecording (releaseStream ?x) = _ =>
        destruct (releaseStream_frame x) as (_ & _ & ->)
    end. exact F.
  - match goal with
    | |- isRecording (releaseStream ?x) = _ =>
        destruct (releaseStream_frame x) as (_ & _ & ->)
    end.
    unfold hearTranscript.
    destruct (truthyO (d_text d) && truthy (trim (display (d_text d))));
      exact F.
Qed.

(** The theorem at a second recording started while the first is being
    transcribed. *)
Lemma settled_transcription_witness :
  let s := run [VoiceClick; MediaSettled (Granted 7 SetupOk);
                VoiceClick; DataAvailable [x01%byte]; RecorderStopped;
                VoiceClick; MediaSettled (Granted 8 SetupOk)] initial in
  let s' := onTranscribeSettled (transcript 200 "hi") s in
  isRecording s' = true /\
  audioStream s' = None /\
  ~ In 8 (liveStreams s').
Proof.
  apply (settled_transcription_stops_the_current_stream
           (run [VoiceClick; MediaSettled (Granted 7 SetupOk);
                 VoiceClick; DataAvailable [x01%byte]; RecorderStopped;
                 VoiceClick; MediaSettled (Granted 8 SetupOk)] initial)
           (transcript 200 "hi") 8); reflexivity.
Defined.

(** ** Starting a recording *)

(** X8.  A refused permission leaves the page idle: the notice names the cause,
    the flag and the button are reset, and no stream, recorder or request
    has come into being. *)
Theorem denied_permission_leaves_the_page_idle :
  forall (s : State) (e : Err),
    err_name e = "NotAllowedError" \/ err_name e = "PermissionDeniedError" ->
    let s' := onMediaSettled (Denied e) s in
    notice s' =
      Some ("Failed to start recording. Microphone permission denied. Please allow microphone access.",
            error) /\
    isRecording s' = false /\
    voiceBtn s' = false /\
    audioStream s' = audioStream s /\
    liveStreams s' = liveStreams s /\
    mediaRecorder s' = mediaRecorder s /\
    requests s' = requests s.
Proof.
  intros s e H. cbv zeta.
  assert (M : startErrorMessage e =
              "Failed to start recording. Microphone permission denied. Please allow microphone access.").
  { unfold startErrorMessage. destruct H as [-> | ->]; reflexivity. }
  split; [|repeat split].
  unfold notice, onMediaSettled, exec, startRecording_resume, tryCatch, bind,
    modify, throw.
  cbn [fst snd voiceStatus grant settle set_pending updateVoiceButtonState
       set_voiceBtn set_isRecording].
  rewrite M. reflexivity.
Qed.

(** The theorem at the error browsers raise when the user says no. *)
Lemma denied_permission_witness :
  let s' := onMediaSettled (Denied (mkErr "NotAllowedError" "Permission denied"))
              (startRecording initial) in
  notice s' =
    Some ("Failed to start recording. Microphone permission denied. Please allow microphone access.",
          error) /\
  isRecording s' = false /\
  voiceBtn s' = false /\
  audioStream s' = audioStream (startRecording initial) /\
  liveStreams s' = liveStreams (startRecording initial) /\
  mediaRecorder s' = mediaRecorder (startRecording initial) /\
  requests s' = requests (startRecording initial).
Proof.
  apply (denied_permission_leaves_the_page_idle (startRecording initial)
           (mkErr "NotAllowedError" "Permission denied")).
  left. reflexivity.
Defined.

(** X9.  A missing device is named as such; any other cause is reported with
    the error's own message, or "Please try again." when it has none. *)
Theorem start_failure_names_the_cause :
  forall (s : State) (e : Err),
    err_name e <> "NotAllowedError" ->
    err_name e <> "PermissionDeniedError" ->
    notice (onMediaSettled (Denied e) s) =
      Some (("Failed to start recording. " ++
             if String.eqb (err_name e) "NotFoundError"
                || String.eqb (err_name e) "DevicesNotFoundError"
             then "No microphone found. Please connect a microphone."
             else if truthy (err_message e) then err_message e
                  else "Please try again.")%string,
            error).
Proof.
  intros s e A B.
  apply String.eqb_neq in A. apply String.eqb_neq in B.
  assert (M : startErrorMessage e =
              ("Failed to start recording. " ++
               if String.eqb (err_name e) "NotFoundError"
                  || String.eqb (err_name e) "DevicesNotFoundError"
               then "No microphone found. Please connect a microphone."
               else if truthy (err_message e) then err_message e
                    else "Please try again.")%string).
  { unfold startErrorMessage. rewrite A, B.
    destruct (String.eqb (err_name e) "NotFoundError"
              || String.eqb (err_name e) "DevicesNotFoundError");
      reflexivity. }
  rewrite <- M. reflexivity.
Qed.

(** The theorem at a missing microphone. *)
Lemma start_failure_witness :
  notice (onMediaSettled (Denied (mkErr "NotFoundError" "no device")) initial)
  = Some ("Failed to start recording. No microphone found. Please connect a microphone.",
          error).
Proof.
  apply (start_failure_names_the_cause initial
           (mkErr "NotFoundError" "no device")); discriminate.
Defined.

(** X10.  A granted stream whose recorder starts puts the page in the recording
    state: flag and button set, the stream held and live, the buffer empty
    whatever it held, the [listening] notice shown, nothing posted.  The
    recorder is asked for a type the browser supports, or for none. *)
Theorem granted_stream_starts_recording :
  forall (s : State) (stream : StreamId),
    let s' := onMediaSettled (Granted stream SetupOk) s in
    isRecording s' = true /\
    voiceBtn s' = true /\
    audioStream s' = Some stream /\
    In stream (liveStreams s') /\
    audioChunks s' = [] /\
    (exists mimeType,
       mediaRecorder s' = Some (mkRecorder stream mimeType recording) /\
       ((mimeType = "audio/webm" /\ supportsWebm s = true) \/
        (mimeType = "audio/webm;codecs=opus" /\ supportsWebm s = false /\
         supportsOpus s = true) \/
        (mimeType = "" /\ supportsWebm s = false /\ supportsOpus s = false))) /\
    notice s' =
      Some ("Recording... Speak now! (Click stop when done)", listening) /\
    requests s' = requests s.
Proof.
  intros s stream. cbv zeta.
  repeat split; try (left; reflexivity).
  exists (negotiateMimeType s). split; [reflexivity|].
  unfold negotiateMimeType.
  destruct (supportsWebm s), (supportsOpus s); auto.
Qed.

(** ** Typed input *)

Lemma processUserInput_userInput (text : string) (s : State) :
  userInput (processUserInput text s)
  = if truthy (trim text) then "" else userInput s.
Proof.
  unfold processUserInput.
  destruct (truthy (trim text)) eqn:T.
  - rewrite (truthy_trim _ T). reflexivity.
  - rewrite orb_true_r. reflexivity.
Qed.

(** X11.  Send, pressed again at once, does nothing more: after a submission the
    field is empty, and a field that trims to nothing is never submitted.
    The same holds for a repeated Enter; Enter with shift, like any other
    key, never submits. *)
Theorem send_twice_submits_once :
  forall s : State,
    onSendClick (onSendClick s) = onSendClick s /\
    (forall key shiftKey,
       onKeyPress key shiftKey (onKeyPress key shiftKey s)
       = onKeyPress key shiftKey s) /\
    (forall key, onKeyPress key true s = s).
Proof.
  intros s.
  assert (S1 : forall s0, onSendClick (onSendClick s0) = onSendClick s0).
  { intros s0. destruct (truthy (trim (userInput s0))) eqn:T.
    - assert (E : onSendClick s0
                  = set_userInput ""
                      (processUserInput (trim (userInput s0)) s0))
        by (unfold onSendClick; cbv zeta; rewrite T; reflexivity).
      rewrite E. reflexivity.
    - assert (E : onSendClick s0 = s0)
        by (unfold onSendClick; cbv zeta; rewrite T; reflexivity).
      rewrite E. exact E. }
  split; [apply S1|]. split.
  - intros key shiftKey. unfold onKeyPress.
    destruct (String.eqb key "Enter" && negb shiftKey) eqn:K;
      rewrite ?K; [apply S1 | reflexivity].
  - intros key. unfold onKeyPress. rewrite andb_false_r. reflexivity.
Qed.

(** X12.  A submission shows on the page at once: the placeholder goes, the
    trimmed text is appended as the user's entry, followed by a new typing
    indicator; the field and the notice are cleared. *)
Theorem submission_shows_on_the_page :
  forall (s : State) (text : string),
    truthy (trim text) = true ->
    let s' := processUserInput text s in
    chatContainer s' =
      (removePlaceholder (chatContainer s)
       ++ [Message user (trim text) (now s); TypingIndicator (nextNode s)])%list /\
    userInput s' = "" /\
    notice s' = None /\
    nextNode s' = S (nextNode s).
Proof.
  intros s text T. cbv zeta. unfold processUserInput.
  rewrite T, (truthy_trim _ T).
  cbn [negb orb]. unfold notice.
  cbn. rewrite <- app_assoc. repeat split.
Qed.

(** The theorem at the first message typed into the empty chat. *)
Lemma submission_witness :
  let s' := processUserInput " hi " initial in
  chatContainer s' =
    (removePlaceholder (chatContainer initial)
     ++ [Message user (trim " hi ") (now initial);
         TypingIndicator (nextNode initial)])%list /\
  userInput s' = "" /\
  notice s' = None /\
  nextNode s' = S (nextNode initial).
Proof.
  apply (submission_shows_on_the_page initial " hi "). reflexivity.
Defined.

(** ** The reply *)

(** X13.  A successful reply removes the turn's typing indicator and appends the
    reply's text as one assistant entry (a reply without [text] reads
    "undefined").  With audio the player gets the data URL and is started,
    and the notice stays as it was; without audio the notice says so.
    Nothing is posted. *)
Theorem successful_turn_is_rendered :
  forall (s : State) (node : NodeId) (o : FetchOutcome) (data : Data),
    succeeded o data ->
    let s' := onTurnSettled node o s in
    chatContainer s' =
      (removePlaceholder
         (filter (fun n => negb (isNode node n)) (chatContainer s))
       ++ [Message ai (display (d_text data)) (now s)])%list /\
    requests s' = requests s /\
    (if truthyO (d_audio data) then
       audioPlayer s' =
         Some ("data:audio/mp3;base64," ++ display (d_audio data)) /\
       pending s' =
         (removeFirst (AwaitTurn node) (pending s) ++ [AwaitPlay])%list /\
       voiceStatus s' = voiceStatus s
     else
       audioPlayer s' = audioPlayer s /\
       pending s' = removeFirst (AwaitTurn node) (pending s) /\
       notice s' = Some ("Response received (no audio)", info)).
Proof.
  intros s node o data S. cbv zeta.
  destruct (onTurnSettled_cases node o s) as [(d & F & _) | (d & S' & ->)].
  - exfalso. exact (failure_is_no_success o d data F S).
  - assert (d = data) as ->.
    { destruct S as (st & -> & _), S' as (st' & [= _ <-] & _). reflexivity. }
    unfold renderReply.
    destruct (truthyO (d_audio data)); repeat split.
Qed.

(** The theorem at a reply with text and no audio. *)
Lemma successful_turn_witness :
  let s := processUserInput "hi" initial in
  let data := mkData None (Some "hello") None in
  let s' := onTurnSettled 0 (reply 200 "hello" None) s in
  chatContainer s' =
    (removePlaceholder (filter (fun n => negb (isNode 0 n)) (chatContainer s))
     ++ [Message ai (display (d_text data)) (now s)])%list /\
  requests s' = requests s /\
  (if truthyO (d_audio data) then
     audioPlayer s' =
       Some ("data:audio/mp3;base64," ++ display (d_audio data)) /\
     pending s' = (removeFirst (AwaitTurn 0) (pending s) ++ [AwaitPlay])%list /\
     voiceStatus s' = voiceStatus s
   else
     audioPlayer s' = audioPlayer s /\
     pending s' = removeFirst (AwaitTurn 0) (pending s) /\
     notice s' = Some ("Response received (no audio)", info)).
Proof.
  apply (successful_turn_is_rendered (processUserInput "hi" initial) 0
           (reply 200 "hello" None) (mkData None (Some "hello") None)).
  exists 200. split; reflexivity.
Defined.

(** ** The transcription *)

Lemma releaseStream_others (s : State) :
  audioChunks (releaseStream s) = audioChunks s /\
  chatContainer (releaseStream s) = chatContainer s.
Proof.
  unfold releaseStream. destruct (audioStream s); split; reflexivity.
Qed.

Lemma onTranscribeSettled_frame (o : FetchOutcome) (s : State) :
  audioChunks (onTranscribeSettled o s) = [] /\
  requests (onTranscribeSettled o s) = requests s /\
  chatContainer (onTranscribeSettled o s) = chatContainer s.
Proof.
  destruct (onTranscribeSettled_cases o s) as [(d & _ & ->) | (d & _ & ->)];
    match goal with
    | |- context [releaseStream ?x] =>
        destruct (releaseStream_others x) as [-> ->];
        rewrite (releaseStream_requests x)
    end.
  - repeat split.
  - unfold hearTranscript.
    destruct (truthyO (d_text d) && truthy (trim (display (d_text d))));
      repeat split.
Qed.

(** X14.  However the transcription settles, the buffer is emptied and the held
    stream stopped and forgotten; nothing is posted and the chat is not
    touched. *)
Theorem transcription_always_cleans_up :
  forall (s : State) (o : FetchOutcome),
    let s' := onTranscribeSettled o s in
    audioChunks s' = [] /\
    audioStream s' = None /\
    (forall stream, audioStream s = Some stream ->
                    ~ In stream (liveStreams s')) /\
    requests s' = requests s /\
    chatContainer s' = chatContainer s.
Proof.
  intros s o. cbv zeta.
  destruct (onstop_resume_releases s o) as [N R].
  destruct (onTranscribeSettled_frame o s) as (K1 & K2 & K3).
  repeat split; assumption.
Qed.

(** The theorem at a transcription that fails on the network. *)
Lemma transcription_cleanup_witness :
  let s := run [VoiceClick; MediaSettled (Granted 7 SetupOk);
                DataAvailable [x01%byte]; VoiceClick; RecorderStopped]
               initial in
  ~ In 7 (liveStreams
            (onTranscribeSettled
               (Rejected (mkErr "TypeError" "Failed to fetch")) s)).
Proof.
  apply (transcription_always_cleans_up
           (run [VoiceClick; MediaSettled (Granted 7 SetupOk);
                 DataAvailable [x01%byte]; VoiceClick; RecorderStopped]
                initial)
           (Rejected (mkErr "TypeError" "Failed to fetch"))).
  reflexivity.
Defined.

(** X15.  Only a transcript with speech in it reaches the input field and
    schedules a submission.  Every settled transcription is a failure or a
    success.  A failure shows "Error: <detail>", and nothing else; a
    success whose text is missing, empty or white space shows "No speech
    detected. Please try again."; both leave the field and the timers as
    they were.  A success with speech puts the trimmed text in the field,
    shows "Transcription complete! Click send or record again." and sets
    the timers of that notice and of the submission. *)
Theorem only_speech_reaches_the_field :
  forall (s : State) (o : FetchOutcome),
    let s' := onTranscribeSettled o s in
    ((exists detail, Failure o detail) \/ (exists data, succeeded o data)) /\
    (forall detail,
       Failure o detail ->
       notice s' = Some ("Error: " ++ detail, error) /\
       userInput s' = userInput s /\
       timers s' = timers s) /\
    (forall data,
       succeeded o data ->
       if truthyO (d_text data) && truthy (trim (display (d_text data))) then
         notice s' =
           Some ("Transcription complete! Click send or record again.", info) /\
         userInput s' = trim (display (d_text data)) /\
         timers s' =
           (timers s ++ [((now s + 5000)%N, HideInfo);
                         ((now s + 1000)%N, AutoSubmit)])%list
       else
         notice s' = Some ("No speech detected. Please try again.", error) /\
         userInput s' = userInput s /\
         timers s' = timers s).
Proof.
  intros s o. cbv zeta.
  split; [apply outcome_cases|].
  split.
  - intros detail F.
    unfold onTranscribeSettled, exec, onstop_resume, bind.
    rewrite (processRecordedAudio_resume_failure _ _ _ F).
    cbn [fst snd modify].
    match goal with
    | |- context [releaseStream ?x] =>
        destruct (releaseStream_userInput x) as (-> & -> & _);
        destruct (releaseStream_frame x) as (_ & V & _)
    end.
    unfold notice. rewrite V. repeat split.
  - intros data S.
    unfold onTranscribeSettled, exec, onstop_resume, bind.
    rewrite (processRecordedAudio_resume_success _ _ _ S).
    cbn [fst snd modify].
    match goal with
    | |- context [releaseStream ?x] =>
        destruct (releaseStream_userInput x) as (-> & -> & _);
        destruct (releaseStream_frame x) as (_ & V & _)
    end.
    unfold notice. rewrite V. unfold hearTranscript.
    destruct (truthyO (d_text data) && truthy (trim (display (d_text data)))).
    + repeat split. cbn. rewrite <- app_assoc. reflexivity.
    + repeat split.
Qed.

(** A transcription that the network fails, after one recording. *)
Lemma only_speech_witness :
  let s := run [VoiceClick; MediaSettled (Granted 7 SetupOk);
                DataAvailable [x01%byte]; VoiceClick; RecorderStopped;
                Typed "draft"]
               initial in
  let s' := onTranscribeSettled
              (Rejected (mkErr "TypeError" "Failed to fetch")) s in
  notice s' = Some ("Error: Failed to fetch", error) /\
  userInput s' = "draft" /\
  timers s' = timers s.
Proof.
  apply (only_speech_reaches_the_field
           (run [VoiceClick; MediaSettled (Granted 7 SetupOk);
                 DataAvailable [x01%byte]; VoiceClick; RecorderStopped;
                 Typed "draft"]
                initial)
           (Rejected (mkErr "TypeError" "Failed to fetch"))).
  apply (NetworkError (mkErr "TypeError" "Failed to fetch")).
Defined.

(** X16.  When the recorder's [stop] event finds chunks in the buffer, they are
    posted once as one payload and the notice says "Transcribing audio...";
    the buffer and the stream are left as they are: the stream stays live
    for the whole round trip of the transcription. *)
Theorem stop_event_posts_the_buffer_once :
  forall s : State,
    audioChunks s <> [] ->
    let s' := onRecorderStopped s in
    issued s s' = [TranscribeAudio (new_Blob (audioChunks s))] /\
    pending s' = (removeFirst AwaitStop (pending s) ++ [AwaitTranscribe])%list /\
    notice s' = Some ("Transcribing audio...", info) /\
    audioChunks s' = audioChunks s /\
    audioStream s' = audioStream s /\
    liveStreams s' = liveStreams s.
Proof.
  intros s H. cbv zeta.
  unfold onRecorderStopped, onstop, processRecordedAudio.
  change (audioChunks (settle AwaitStop s)) with (audioChunks s).
  destruct (audioChunks s) as [|c l] eqn:E; [congruence|].
  cbn [length Nat.eqb].
  split; [apply issued_one; reflexivity|].
  repeat split. exact E.
Qed.

(** The theorem at a recording stopped after one chunk. *)
Lemma stop_event_witness :
  let s := run [VoiceClick; MediaSettled (Granted 7 SetupOk);
                DataAvailable [x01%byte]; VoiceClick] initial in
  let s' := onRecorderStopped s in
  issued s s' = [TranscribeAudio (new_Blob (audioChunks s))] /\
  pending s' = (removeFirst AwaitStop (pending s) ++ [AwaitTranscribe])%list /\
  notice s' = Some ("Transcribing audio...", info) /\
  audioChunks s' = audioChunks s /\
  audioStream s' = audioStream s /\
  liveStreams s' = liveStreams s.
Proof.
  apply (stop_event_posts_the_buffer_once
           (run [VoiceClick; MediaSettled (Granted 7 SetupOk);
                 DataAvailable [x01%byte]; VoiceClick] initial)).
  vm_compute. discriminate.
Defined.

(** ** The conversation *)

Lemma messagesOf_app (l r : list ChatNode) :
  messagesOf (l ++ r) = (messagesOf l ++ messagesOf r)%list.
Proof. apply filter_app. Qed.

Lemma messagesOf_removePlaceholder (l : list ChatNode) :
  messagesOf (removePlaceholder l) = messagesOf l.
Proof.
  induction l as [|n l IH]; [reflexivity|].
  destruct n; simpl; [reflexivity | rewrite IH; reflexivity | exact IH].
Qed.

Lemma messagesOf_without_typing (node : NodeId) (l : list ChatNode) :
  messagesOf (filter (fun n => negb (isNode node n)) l) = messagesOf l.
Proof.
  induction l as [|n l IH]; [reflexivity|].
  destruct n as [| sender text stamp | m]; simpl.
  - exact IH.
  - rewrite IH. reflexivity.
  - destruct (Nat.eqb m node); simpl; exact IH.
Qed.

Lemma ChatGrows_same (s s' : State) :
  chatContainer s' = chatContainer s -> ChatGrows s s'.
Proof. intros E. exists []. rewrite E. symmetry. apply app_nil_r. Qed.

Lemma ChatGrows_trans (s1 s2 s3 : State) :
  ChatGrows s1 s2 -> ChatGrows s2 s3 -> ChatGrows s1 s3.
Proof.
  intros [a A] [b B]. exists (a ++ b)%list.
  rewrite B, A. symmetry. apply app_assoc.
Qed.

Lemma ChatGrows_addMessageToChat (sender : Sender) (text : string)
    (s : State) :
  ChatGrows s (addMessageToChat sender text s).
Proof.
  exists [Message sender text (now s)]. unfold addMessageToChat.
  cbn [chatContainer set_chatContainer].
  rewrite messagesOf_app, messagesOf_removePlaceholder. reflexivity.
Qed.

Lemma ChatGrows_removeNode (node : NodeId) (s : State) :
  ChatGrows s (removeNode node s).
Proof.
  exists []. unfold removeNode. cbn [chatContainer set_chatContainer].
  rewrite messagesOf_without_typing. symmetry. apply app_nil_r.
Qed.

Lemma ChatGrows_processUserInput (text : string) (s : State) :
  ChatGrows s (processUserInput text s).
Proof.
  unfold processUserInput.
  destruct (negb (truthy text) || negb (truthy (trim text))).
  - apply ChatGrows_same. reflexivity.
  - exists [Message user (trim text) (now s)].
    cbn [chatContainer set_chatContainer showTypingIndicator fetch await
         set_pending set_requests set_nextNode set_userInput set_voiceStatus
         addMessageToChat].
    rewrite !messagesOf_app, messagesOf_removePlaceholder.
    cbn. symmetry. rewrite app_nil_r. reflexivity.
Qed.

Lemma typingIds_app (l r : list ChatNode) :
  typingIds (l ++ r) = (typingIds l ++ typingIds r)%list.
Proof.
  induction l as [|n l IH]; [reflexivity|].
  destruct n; simpl; congruence.
Qed.

Lemma turnIds_app (l r : list Async) :
  turnIds (l ++ r) = (turnIds l ++ turnIds r)%list.
Proof.
  induction l as [|a l IH]; [reflexivity|].
  destruct a; simpl; congruence.
Qed.

Lemma stopRecording_chat (s : State) :
  chatContainer (stopRecording s) = chatContainer s /\
  nextNode s <= nextNode (stopRecording s) /\
  turnIds (pending (stopRecording s)) = turnIds (pending s).
Proof.
  unfold stopRecording, recorder_stop.
  destruct (mediaRecorder s) as [[st mime [|]]|], (isRecording s);
    cbn [chatContainer nextNode pending updateStatusIndicator setTimeout
         set_timers set_voiceStatus set_statusIndicator set_nextNode
         updateVoiceButtonState set_voiceBtn set_isRecording await
         set_pending set_mediaRecorder rec_state rec_stream rec_mimeType];
    repeat split; auto.
  rewrite turnIds_app. apply app_nil_r.
Qed.

Lemma ChatGrows_step (s0 s : State) (ev : Event) :
  ChatGrows s0 s -> ChatGrows s0 (step s ev).
Proof.
  revert s ev. apply (step_invariant (ChatGrows s0));
    intros s; intros;
    (eapply ChatGrows_trans; [eassumption|]).
  - apply ChatGrows_same. unfold toggleVoiceRecording.
    destruct (mediaSupported s); [|reflexivity].
    destruct (isRecording s); [apply stopRecording_chat | reflexivity].
  - unfold onSendClick.
    destruct (truthy (trim (userInput s))); [|apply ChatGrows_same; reflexivity].
    apply (ChatGrows_processUserInput _ s).
  - apply ChatGrows_same. reflexivity.
  - apply ChatGrows_same. destruct o as [stream [|e|e]|e]; reflexivity.
  - apply ChatGrows_same. unfold ondataavailable.
    destruct (Nat.ltb 0 (blob_size data)); reflexivity.
  - apply ChatGrows_same. unfold onerror.
    rewrite (proj1 (stopRecording_chat _)). reflexivity.
  - apply ChatGrows_same.
    unfold onRecorderStopped, onstop, processRecordedAudio.
    destruct (Nat.eqb _ 0); [|reflexivity].
    rewrite (proj2 (releaseStream_others _)). reflexivity.
  - apply ChatGrows_same.
    apply (onTranscribeSettled_frame o s).
  - destruct (onTurnSettled_cases node o s) as [(d & _ & ->) | (d & _ & ->)].
    + unfold reportFailure.
      eapply ChatGrows_trans; [apply (ChatGrows_removeNode node)|].
      eapply ChatGrows_trans; [apply ChatGrows_addMessageToChat|].
      apply ChatGrows_same. destruct s; reflexivity.
    + unfold renderReply.
      eapply ChatGrows_trans; [apply (ChatGrows_removeNode node)|].
      eapply ChatGrows_trans; [apply ChatGrows_addMessageToChat|].
      apply ChatGrows_same. destruct (truthyO (d_audio d)); reflexivity.
  - apply ChatGrows_same. reflexivity.
  - apply ChatGrows_same. unfold hideInfo.
    destruct (statusIndicator s), (voiceStatus s) as [st|]; try reflexivity.
    destruct (Nat.eqb _ _); reflexivity.
  - apply ChatGrows_same. reflexivity.
  - apply ChatGrows_same. reflexivity.
Qed.

(** X17.  The conversation is append-only: whatever happens, the entries already
    in the chat stay there, in their order; events only add entries after
    them (typing indicators and the placeholder come and go around them). *)
Theorem chat_is_append_only :
  forall (evs : list Event) (s : State),
    exists extra,
      messagesOf (chatContainer (run evs s))
      = (messagesOf (chatContainer s) ++ extra)%list.
Proof.
  intros evs s.
  apply (run_invariant (ChatGrows s) (ChatGrows_step s)).
  apply ChatGrows_same. reflexivity.
Qed.

(** ** Typing indicators and turns in flight *)

Lemma typingIds_removePlaceholder (l : list ChatNode) :
  typingIds (removePlaceholder l) = typingIds l.
Proof.
  induction l as [|n l IH]; [reflexivity|].
  destruct n; simpl; congruence.
Qed.

Lemma typingIds_without (node : NodeId) (l : list ChatNode) :
  typingIds (filter (fun n => negb (isNode node n)) l)
  = filter (isNot node) (typingIds l).
Proof.
  induction l as [|n l IH]; [reflexivity|].
  destruct n as [| sender text stamp | m]; simpl; try exact IH.
  unfold isNot at 1. destruct (Nat.eqb m node); simpl; congruence.
Qed.

Lemma In_typingIds (n : NodeId) (l : list ChatNode) :
  In n (typingIds l) <-> In (TypingIndicator n) l.
Proof.
  induction l as [|c l IH]; simpl; [tauto|].
  destruct c; simpl; rewrite IH; intuition (try discriminate; congruence).
Qed.

Lemma In_turnIds (n : NodeId) (l : list Async) :
  In n (turnIds l) <-> In (AwaitTurn n) l.
Proof.
  induction l as [|a l IH]; simpl; [tauto|].
  destruct a; simpl; rewrite IH; intuition (try discriminate; congruence).
Qed.

Lemma filter_isNot_absent (n : NodeId) (l : list NodeId) :
  ~ In n l -> filter (isNot n) l = l.
Proof.
  induction l as [|m l IH]; simpl; [reflexivity|].
  intros H. unfold isNot at 1.
  destruct (Nat.eqb m n) eqn:E; simpl.
  - apply Nat.eqb_eq in E. tauto.
  - rewrite IH; tauto.
Qed.

Lemma turnIds_removeFirst_other (a : Async) (l : list Async) :
  (forall n, a <> AwaitTurn n) ->
  turnIds (removeFirst a l) = turnIds l.
Proof.
  intros H. induction l as [|b l IH]; [reflexivity|].
  simpl. destruct (Async_eqb a b) eqn:E.
  - destruct a, b; try discriminate; try reflexivity.
    exfalso. exact (H _ eq_refl).
  - destruct b; simpl; congruence.
Qed.

Lemma turnIds_removeFirst_turn (n : NodeId) (l : list Async) :
  NoDup (turnIds l) ->
  turnIds (removeFirst (AwaitTurn n) l) = filter (isNot n) (turnIds l).
Proof.
  induction l as [|b l IH]; [reflexivity|].
  intros D. destruct b as [| | | m |]; simpl in *; auto.
  inversion D as [|x xs Hx D']; subst.
  unfold isNot at 1. rewrite (Nat.eqb_sym m n).
  destruct (Nat.eqb n m) eqn:E; simpl.
  - apply Nat.eqb_eq in E. subst m.
    symmetry. apply filter_isNot_absent. exact Hx.
  - rewrite IH; auto.
Qed.

Lemma TypingMatchesTurns_frame (s s' : State) :
  TurnsFrame s s' -> TypingMatchesTurns s -> TypingMatchesTurns s'.
Proof.
  intros (T & P & N) (E & D & L). unfold TypingMatchesTurns.
  rewrite T, P. repeat split; auto.
  eapply Forall_impl; [|exact L]. intros a H. simpl in H. lia.
Qed.

Lemma TurnsFrame_refl (s s' : State) :
  chatContainer s' = chatContainer s -> pending s' = pending s ->
  nextNode s <= nextNode s' -> TurnsFrame s s'.
Proof. intros C P N. unfold TurnsFrame. rewrite C, P. auto. Qed.

Lemma TurnsFrame_trans (s1 s2 s3 : State) :
  TurnsFrame s1 s2 -> TurnsFrame s2 s3 -> TurnsFrame s1 s3.
Proof.
  intros (A & B & C) (A' & B' & C'). unfold TurnsFrame.
  rewrite A', B', A, B. repeat split; lia.
Qed.

Ltac frame_solve :=
  unfold TurnsFrame;
  cbn [chatContainer pending nextNode negb andb orb fst snd
       updateStatusIndicator setTimeout updateVoiceButtonState
       await settle fetch getUserMedia play stopTracks grant
       addMessageToChat removeNode
       set_mediaRecorder set_audioChunks set_isRecording set_statusIndicator
       set_audioStream set_userInput set_voiceStatus set_chatContainer
       set_voiceBtn set_audioPlayer set_now set_timers set_nextNode
       set_liveStreams set_mediaRequests set_pending set_requests set_alerts];
  rewrite ?turnIds_app, ?typingIds_app, ?typingIds_removePlaceholder;
  rewrite ?turnIds_removeFirst_other by discriminate;
  cbn [turnIds typingIds app];
  rewrite ?app_nil_r;
  repeat split; auto; lia.

Lemma TurnsFrame_stopRecording (s : State) : TurnsFrame s (stopRecording s).
Proof.
  destruct (stopRecording_chat s) as (C & N & P).
  unfold TurnsFrame. rewrite C. auto.
Qed.

Lemma TurnsFrame_releaseStream (s s' : State) :
  TurnsFrame s s' -> TurnsFrame s (releaseStream s').
Proof.
  intros H. unfold releaseStream.
  destruct (audioStream s'); [|exact H].
  destruct H as (A & B & C). frame_solve.
Qed.

Lemma TypingMatchesTurns_processUserInput (text : string) (s : State) :
  TypingMatchesTurns s -> TypingMatchesTurns (processUserInput text s).
Proof.
  intros (E & D & L). unfold processUserInput.
  destruct (negb (truthy text) || negb (truthy (trim text)));
    [repeat split; assumption|].
  unfold TypingMatchesTurns.
  cbn [chatContainer pending nextNode showTypingIndicator fetch await
       set_pending set_requests set_nextNode set_userInput set_voiceStatus
       addMessageToChat set_chatContainer].
  rewrite !typingIds_app, typingIds_removePlaceholder, turnIds_app, E.
  cbn [typingIds turnIds app].
  assert (F : ~ In (nextNode s) (turnIds (pending s))).
  { intros H. rewrite Forall_forall in L. apply L in H. lia. }
  rewrite app_nil_r.
  split; [reflexivity|]. split.
  - apply NoDup_app; [exact D | repeat constructor; intros [] | ].
    intros x H [<- | []]. exact (F H).
  - apply Forall_app. split.
    + eapply Forall_impl; [|exact L]. intros a H. simpl in H. lia.
    + repeat constructor.
Qed.

(** Removing the turn and its indicator, on both sides. *)
Lemma TypingMatchesTurns_turn_removed (node : NodeId) (s : State) :
  TypingMatchesTurns s ->
  TypingMatchesTurns (removeNode node (settle (AwaitTurn node) s)).
Proof.
  intros (E & D & L). unfold TypingMatchesTurns, removeNode, settle.
  cbn [chatContainer pending nextNode set_pending set_chatContainer].
  rewrite typingIds_without, (turnIds_removeFirst_turn node _ D), E.
  repeat split.
  - apply NoDup_filter. exact D.
  - rewrite Forall_forall in *. intros x H.
    apply filter_In in H. apply L, H.
Qed.

Lemma removeNode_settle (node : NodeId) (a : Async) (s : State) :
  removeNode node (settle a s) = settle a (removeNode node s).
Proof. reflexivity. Qed.

(** The four ways [startRecording] ends, as plain updates of the state. *)
Lemma onMediaSettled_cases (o : MediaOutcome) (s : State) :
  let s0 := settle AwaitMedia s in
  onMediaSettled o s =
    match o with
    | Denied e =>
        updateVoiceButtonState false
          (updateStatusIndicator (startErrorMessage e) error s0)
    | Granted stream setup =>
        let s1 := set_audioStream (Some stream)
                    (set_liveStreams (stream :: liveStreams s0) s0) in
        let r := mkRecorder stream (negotiateMimeType s) in
        match setup with
        | ConstructorThrows e =>
            updateVoiceButtonState false
              (updateStatusIndicator (startErrorMessage e) error s1)
        | StartThrows e =>
            updateVoiceButtonState false
              (updateStatusIndicator (startErrorMessage e) error
                 (set_audioChunks []
                    (set_mediaRecorder (Some (r inactive)) s1)))
        | SetupOk =>
            updateStatusIndicator
              "Recording... Speak now! (Click stop when done)" listening
              (updateVoiceButtonState true
                 (set_isRecording true
                    (set_mediaRecorder (Some (r recording))
                       (set_audioChunks []
                          (set_mediaRecorder (Some (r inactive)) s1)))))
        end
    end.
Proof. destruct o as [stream [|e|e]|e]; reflexivity. Qed.

Lemma TypingMatchesTurns_step (s : State) (ev : Event) :
  TypingMatchesTurns s -> TypingMatchesTurns (step s ev).
Proof.
  revert s ev. apply (step_invariant TypingMatchesTurns); intros s.
  - apply TypingMatchesTurns_frame. unfold toggleVoiceRecording.
    destruct (mediaSupported s); [|frame_solve].
    destruct (isRecording s); [apply TurnsFrame_stopRecording|].
    unfold startRecording. frame_solve.
  - intros H. unfold onSendClick.
    destruct (truthy (trim (userInput s))); [|exact H].
    apply (TypingMatchesTurns_processUserInput _ s H).
  - intros value H. exact H.
  - intros o _. apply TypingMatchesTurns_frame.
    rewrite onMediaSettled_cases. cbv zeta.
    destruct o as [stream [|e|e]|e]; frame_solve.
  - intros data H. unfold ondataavailable.
    destruct (Nat.ltb 0 (blob_size data)); exact H.
  - apply TypingMatchesTurns_frame. unfold onerror.
    eapply TurnsFrame_trans; [|apply TurnsFrame_stopRecording].
    frame_solve.
  - apply TypingMatchesTurns_frame.
    unfold onRecorderStopped, onstop, processRecordedAudio.
    destruct (Nat.eqb _ 0).
    + apply TurnsFrame_releaseStream. frame_solve.
    + frame_solve.
  - intros o. apply TypingMatchesTurns_frame.
    destruct (onTranscribeSettled_cases o s) as [(d & _ & ->) | (d & _ & ->)];
      apply TurnsFrame_releaseStream.
    + frame_solve.
    + unfold hearTranscript.
      destruct (truthyO (d_text d) && truthy (trim (display (d_text d))));
        frame_solve.
  - intros node o H.
    apply (TypingMatchesTurns_turn_removed node) in H.
    revert H. apply TypingMatchesTurns_frame.
    destruct (onTurnSettled_cases node o s) as [(d & _ & ->) | (d & _ & ->)].
    + unfold reportFailure. frame_solve.
    + unfold renderReply. destruct (truthyO (d_audio d)); frame_solve.
  - apply TypingMatchesTurns_frame. unfold onPlayRejected. frame_solve.
  - apply TypingMatchesTurns_frame. unfold hideInfo.
    destruct (statusIndicator s), (voiceStatus s) as [st|];
      try frame_solve.
    destruct (Nat.eqb _ _); frame_solve.
  - intros t H. exact H.
  - intros l H. exact H.
Qed.

(** X18.  After any sequence of events the typing indicators in the chat are
    exactly those of the turns in flight, one each: a turn that has settled
    leaves no indicator behind, and no indicator shows without a turn. *)
Theorem typing_indicators_are_the_turns_in_flight :
  forall evs : list Event,
    let s := run evs initial in
    typingIds (chatContainer s) = turnIds (pending s) /\
    NoDup (typingIds (chatContainer s)) /\
    (forall node,
       In (TypingIndicator node) (chatContainer s)
       <-> In (AwaitTurn node) (pending s)).
Proof.
  intros evs. cbv zeta.
  assert (H : TypingMatchesTurns (run evs initial)).
  { apply (run_invariant TypingMatchesTurns TypingMatchesTurns_step).
    repeat split; constructor. }
  destruct H as (E & D & _).
  split; [exact E|]. split; [rewrite E; exact D|].
  intros node. rewrite <- In_typingIds, <- In_turnIds, E. tauto.
Qed.

(** ** One recording and its payload *)


















(** * The speech-recognition script *)

(** X19.  Whatever makes the request fail, this script shows the same apology:
    the typing indicator goes, one assistant entry with the fixed text is
    appended, the failure's detail appears nowhere, and nothing is posted
    again. *)
Theorem speech_script_failure_shows_the_apology :
  forall (p : SpeechScript.Page) (node : NodeId) (o : FetchOutcome)
         (detail : string),
    Failure o detail ->
    let p' := SpeechScript.onTurnSettled node o p in
    SpeechScript.chatContainer p' =
      (filter (fun n => negb (SpeechScript.isNode node n))
         (SpeechScript.chatContainer p)
       ++ [SpeechScript.Entry ai SpeechScript.apology])%list /\
    SpeechScript.requests p' = SpeechScript.requests p /\
    SpeechScript.audioPlayer p' = SpeechScript.audioPlayer p.
Proof.
  intros p node o detail F. cbv zeta.
  unfold SpeechScript.onTurnSettled, SpeechScript.exec,
    SpeechScript.processUserInput_resume, SpeechScript.tryCatch,
    SpeechScript.bind, SpeechScript.modify, SpeechScript.throw,
    SpeechScript.ret.
  destruct F as [e | status d msg E T | status j E | status d msg E T
                | status e]; cbn; try (repeat split; fail).
  rewrite E. cbn. rewrite T. cbn. rewrite filter_idem. repeat split.
Qed.

(** The theorem at a reply with status 500. *)
Lemma speech_script_failure_witness :
  let p := SpeechScript.processUserInput "hi" SpeechScript.initial in
  let p' := SpeechScript.onTurnSettled 0
              (Resolved (mkResponse false 500 (inr emptyObject))) p in
  SpeechScript.chatContainer p' =
    (filter (fun n => negb (SpeechScript.isNode 0 n))
       (SpeechScript.chatContainer p)
     ++ [SpeechScript.Entry ai SpeechScript.apology])%list /\
  SpeechScript.requests p' = SpeechScript.requests p /\
  SpeechScript.audioPlayer p' = SpeechScript.audioPlayer p.
Proof.
  apply (speech_script_failure_shows_the_apology
           (SpeechScript.processUserInput "hi" SpeechScript.initial) 0
           (Resolved (mkResponse false 500 (inr emptyObject)))
           ("Server error: " ++ ofNat 500)).
  apply (StatusAlone 500 (inr emptyObject)). reflexivity.
Defined.

(** X20.  A recognized transcript is posted as heard, untrimmed and even when
    blank, and it stays in the input field: a click on Send after it posts
    the same words a second time. *)
Theorem speech_script_transcript_stays_in_the_field :
  forall (p : SpeechScript.Page) (transcript : string),
    let p' := SpeechScript.onresult transcript p in
    SpeechScript.requests p'
      = (SpeechScript.requests p ++ [transcript])%list /\
    SpeechScript.userInput p' = transcript /\
    SpeechScript.chatContainer p'
      = (SpeechScript.chatContainer p
         ++ [SpeechScript.Entry user transcript;
             SpeechScript.Typing (SpeechScript.nextNode p)])%list /\
    SpeechScript.requests (SpeechScript.onSendClick p')
      = (SpeechScript.requests p ++ transcript ::
         if truthy (trim transcript) then [trim transcript] else [])%list.
Proof.
  intros p transcript. cbv zeta. repeat split.
  - cbn. rewrite <- app_assoc. reflexivity.
  - unfold SpeechScript.onSendClick. cbv zeta.
    change (SpeechScript.userInput (SpeechScript.onresult transcript p))
      with transcript.
    destruct (truthy (trim transcript)); cbn.
    + rewrite <- app_assoc. reflexivity.
    + reflexivity.
Qed.

Lemma speech_script_flag_step (p : SpeechScript.Page)
    (ev : SpeechScript.Event) :
  SpeechScript.voiceBtn p = SpeechScript.isListening p /\
  (SpeechScript.isListening p = true -> SpeechScript.started p = true) ->
  SpeechScript.voiceBtn (SpeechScript.step p ev)
  = SpeechScript.isListening (SpeechScript.step p ev) /\
  (SpeechScript.isListening (SpeechScript.step p ev) = true ->
   SpeechScript.started (SpeechScript.step p ev) = true).
Proof.
  intros [B L].
  assert (K : forall q,
            SpeechScript.voiceBtn q = SpeechScript.voiceBtn p ->
            SpeechScript.isListening q = SpeechScript.isListening p ->
            SpeechScript.started q = SpeechScript.started p ->
            SpeechScript.voiceBtn q = SpeechScript.isListening q /\
            (SpeechScript.isListening q = true ->
             SpeechScript.started q = true)).
  { intros q -> -> ->. split; assumption. }
  assert (Off : forall q,
            SpeechScript.voiceBtn
              (SpeechScript.updateVoiceButtonState false q)
            = SpeechScript.isListening
                (SpeechScript.updateVoiceButtonState false q) /\
            (SpeechScript.isListening
               (SpeechScript.updateVoiceButtonState false q) = true ->
             SpeechScript.started
               (SpeechScript.updateVoiceButtonState false q) = true)).
  { intros q. split; [reflexivity | discriminate]. }
  destruct ev; simpl.
  - unfold SpeechScript.toggleVoiceRecognition.
    destruct (SpeechScript.recognition p); simpl;
      [|apply K; auto].
    destruct (SpeechScript.isListening p) eqn:F;
      [apply K; auto|].
    destruct (SpeechScript.started p); [apply Off|].
    split; reflexivity.
  - unfold SpeechScript.onSendClick. cbv zeta.
    destruct (truthy (trim (SpeechScript.userInput p)));
      apply K; auto.
  - unfold SpeechScript.onKeyPress, SpeechScript.onSendClick. cbv zeta.
    destruct (String.eqb key "Enter" && negb shiftKey);
      [|apply K; auto].
    destruct (truthy (trim (SpeechScript.userInput p)));
      apply K; auto.
  - apply K; auto.
  - destruct (SpeechScript.started p) eqn:S; apply K; auto.
  - destruct (SpeechScript.started p) eqn:S;
      [apply Off | apply K; auto].
  - destruct (SpeechScript.started p) eqn:S;
      [apply Off | apply K; auto].
  - destruct (existsb _ (SpeechScript.pending p)); [|apply K; auto].
    unfold SpeechScript.onTurnSettled, SpeechScript.exec,
      SpeechScript.processUserInput_resume, SpeechScript.tryCatch,
      SpeechScript.bind, SpeechScript.modify, SpeechScript.throw,
      SpeechScript.ret.
    destruct o as [e | [[|] status [e | d]]]; simpl;
      try solve [apply K; reflexivity].
    destruct (truthyO (d_error d)); simpl; [apply K; reflexivity|].
    destruct (truthyO (d_audio d)); simpl; apply K; reflexivity.
Qed.

(** X21.  In the speech-recognition script too the button shows the flag after
    any sequence of events, and the flag is set only while the browser's
    recognizer is running. *)
Theorem speech_script_button_and_flag_agree :
  forall evs : list SpeechScript.Event,
    let p := SpeechScript.run evs SpeechScript.initial in
    SpeechScript.voiceBtn p = SpeechScript.isListening p /\
    (SpeechScript.isListening p = true -> SpeechScript.started p = true).
Proof.
  intros evs. cbv zeta. unfold SpeechScript.run.
  assert (G : forall p,
            SpeechScript.voiceBtn p = SpeechScript.isListening p /\
            (SpeechScript.isListening p = true ->
             SpeechScript.started p = true) ->
            SpeechScript.voiceBtn (fold_left SpeechScript.step evs p)
            = SpeechScript.isListening (fold_left SpeechScript.step evs p) /\
            (SpeechScript.isListening (fold_left SpeechScript.step evs p)
             = true ->
             SpeechScript.started (fold_left SpeechScript.step evs p) = true)).
  { induction evs as [|ev evs IH]; intros p H; simpl; [exact H|].
    apply IH, speech_script_flag_step, H. }
  apply G. split; [reflexivity | discriminate].
Qed.

(** The theorem while the recognizer listens. *)
Lemma speech_script_button_witness :
  SpeechScript.started
    (SpeechScript.run [SpeechScript.VoiceClick] SpeechScript.initial) = true.
Proof.
  apply (speech_script_button_and_flag_agree [SpeechScript.VoiceClick]).
  reflexivity.
Defined.

(** ** A whole voice turn *)

Lemma run_app (a b : list Event) (s : State) :
  run (a ++ b) s = run b (run a s).
Proof. apply fold_left_app. Qed.

(** With a recorder in place, the recorder's [dataavailable] events are
    handled one by one by [ondataavailable]. *)
Lemma run_DataAvailable (chunks : list Blob) (s : State) :
  hasRecorder s = true ->
  run (map DataAvailable chunks) s
  = set_audioChunks (audioChunks s ++ filter hasData chunks) s.
Proof.
  intros H.
  assert (G : run (map DataAvailable chunks) s = deliver chunks s).
  { unfold run, deliver. revert s H.
    induction chunks as [|c chunks IH]; intros s H; simpl; [reflexivity|].
    rewrite H. apply IH.
    unfold ondataavailable, hasRecorder in *.
    destruct (Nat.ltb 0 (blob_size c)); exact H. }
  rewrite G, deliver_frame, deliver_audioChunks. reflexivity.
Qed.

Lemma filter_hasData_some (chunks : list Blob) :
  existsb hasData chunks = true -> filter hasData chunks <> [].
Proof.
  intros H E. apply filter_hasData_nil in E.
  induction chunks as [|c chunks IH]; simpl in *; [discriminate|].
  destruct (hasData c); simpl in *; [discriminate | auto].
Qed.

(** Time passing over exactly one due timer. *)
Lemma advance_single (t : N) (s : State) (x : N * TimerCb) :
  filter (fun y => N.leb (fst y) t) (timers s) = [x] ->
  advance t s
  = let s' := runTimer
                (set_timers
                   (filter (fun y => negb (N.leb (fst y) t)) (timers s)) s)
                x in
    set_now (N.max (now s') t) s'.
Proof. unfold advance. intros ->. reflexivity. Qed.

(** X22.  A whole voice turn, seen from the event loop: toggle, stream granted,
    chunks of which at least one holds data, toggle, the recorder's [stop]
    event, a transcript with speech, one second, the reply.  The chunks'
    bytes are posted once, the trimmed transcript is posted once as the
    turn's input, the chat shows the user's entry and the reply, and the
    page is idle again: flag clear, stream stopped and forgotten, buffer,
    field and pending list empty. *)
Theorem voice_turn_end_to_end :
  forall (stream : StreamId) (chunks : list Blob) (text answer : string),
    existsb hasData chunks = true ->
    truthy (trim text) = true ->
    let s := run ([VoiceClick; MediaSettled (Granted stream SetupOk)]
                  ++ map DataAvailable chunks
                  ++ [VoiceClick; RecorderStopped;
                      TranscribeSettled (transcript 200 text);
                      Advance 1000%N;
                      TurnSettled 5 (reply 200 answer None)]) initial in
    requests s = [TranscribeAudio (concat chunks); ProcessInput (trim text)] /\
    chatContainer s = [Message user (trim text) 1000%N;
                       Message ai answer 1000%N] /\
    isRecording s = false /\
    audioStream s = None /\
    liveStreams s = [] /\
    audioChunks s = [] /\
    userInput s = "" /\
    pending s = [].
Proof.
  intros stream chunks text answer C T. cbv zeta.
  rewrite !run_app.
  set (s1 := run [VoiceClick; MediaSettled (Granted stream SetupOk)] initial).
  rewrite (run_DataAvailable chunks s1) by (vm_compute; reflexivity).
  pose proof (filter_hasData_some chunks C) as NE.
  pose proof (concat_hasData chunks) as CC.
  replace (audioChunks s1) with (@nil Blob) by (vm_compute; reflexivity).
  cbn [app].
  destruct (filter hasData chunks) as [|c l] eqn:E; [congruence|].
  rewrite <- CC. clear E NE CC C.
  unfold run. cbn [fold_left].
  set (sA := step (step (set_audioChunks (c :: l) s1) VoiceClick)
               RecorderStopped).
  assert (EA : step sA (TranscribeSettled (transcript 200 text))
               = onTranscribeSettled (transcript 200 text) sA).
  { unfold step.
    replace (awaited AwaitTranscribe sA) with true
      by (vm_compute; reflexivity).
    reflexivity. }
  rewrite EA. clear EA.
  rewrite onTranscribeSettled_transcript, T.
  pose proof (trim_idem text) as I.
  generalize dependent (trim text). intros t T I.
  match goal with
  | |- context [step ?x (Advance 1000)] => set (sB := x)
  end.
  assert (A : step sB (Advance 1000%N)
              = set_now 1000%N
                  (set_userInput ""
                     (fetch (ProcessInput t) (AwaitTurn 5)
                        (snd (showTypingIndicator
                                (set_voiceStatus None
                                   (set_userInput ""
                                      (addMessageToChat user t
                                         (set_now 1000%N
                                            (set_timers
                                               (filter
                                                  (fun y => negb (N.leb (fst y) 1000))
                                                  (timers sB)) sB)))))))))).
  { unfold step.
    rewrite (advance_single 1000 sB (1000%N, AutoSubmit))
      by (vm_compute; reflexivity).
    cbv zeta. unfold runTimer. cbn [fst snd].
    replace (N.max (now (set_timers
                (filter (fun y => negb (N.leb (fst y) 1000)) (timers sB)) sB))
               1000) with 1000%N by (vm_compute; reflexivity).
    unfold autoSubmit, processUserInput.
    match goal with
    | |- context [userInput ?x] =>
        replace (userInput x) with t by (vm_compute; reflexivity)
    end.
    rewrite !I, T. cbn [negb orb].
    vm_compute. reflexivity. }
  rewrite A. clear A.
  match goal with
  | |- context [step ?x (TurnSettled 5 ?o)] => set (sD := x)
  end.
  assert (ED : step sD (TurnSettled 5 (reply 200 answer None))
               = onTurnSettled 5 (reply 200 answer None) sD).
  { unfold step.
    replace (awaited (AwaitTurn 5) sD) with true by (vm_compute; reflexivity).
    reflexivity. }
  rewrite ED. clear ED.
  assert (L : liveStreams (onTurnSettled 5 (reply 200 answer None) sD)
              = filter (fun x => negb (Nat.eqb x stream)) [stream])
    by (vm_compute; reflexivity).
  rewrite L. simpl filter. rewrite Nat.eqb_refl.
  repeat split; vm_compute; reflexivity.
Qed.

(** The theorem at three chunks, the second of them empty. *)
Lemma voice_turn_witness :
  let s := run ([VoiceClick; MediaSettled (Granted 7 SetupOk)]
                ++ map DataAvailable [[x01; x02]; []; [x03]]%byte
                ++ [VoiceClick; RecorderStopped;
                    TranscribeSettled (transcript 200 " what is the weather ");
                    Advance 1000%N;
                    TurnSettled 5 (reply 200 "sunny" None)]) initial in
  requests s = [TranscribeAudio (concat [[x01; x02]; []; [x03]]%byte);
                ProcessInput (trim " what is the weather ")] /\
  chatContainer s = [Message user (trim " what is the weather ") 1000%N;
                     Message ai "sunny" 1000%N] /\
  isRecording s = false /\
  audioStream s = None /\
  liveStreams s = [] /\
  audioChunks s = [] /\
  userInput s = "" /\
  pending s = [].
Proof.
  apply (voice_turn_end_to_end 7 [[x01; x02]; []; [x03]]%byte
           " what is the weather " "sunny"); reflexivity.
Defined.
